(** * ShopManagement: the inventory / sales / dues ledger of core/database.py

    A shallow embedding of the storage layer of the shop ledger and the
    properties of its specification.

    Modelling conventions.
    - SQLite INTEGER columns and Python [int] values are [Z].
    - SQLite REAL columns and Python [float] values are exact rationals [Q]:
      rounding, infinities and NaN are outside the model.  Equality of
      amounts is [==] on [Q] where an amount is the result of arithmetic.
    - TEXT values are [string]; a nullable TEXT column is [option string].
    - The [products] table is a finite map from the primary key [id] to the
      remaining columns; [sales] and [dues_received] are lists in insertion
      (AUTOINCREMENT) order.  Time stamps ([date], [created_at],
      [received_date]) are filled in by the storage engine and are not
      modelled; neither is the [lastrowid] an insert returns.
    - Every function takes the persisted database and returns the persisted
      database after the call together with its outcome: a value, or the
      exception that the call raises.  A statement executed on a connection
      reaches the persisted database at [conn.commit()]; whatever was not
      committed when the connection closes is dropped. *)

From Stdlib Require Import ZArith QArith Qminmax Lqa Lia Bool Ascii String List.
From stdpp Require Import gmap strings list fin_maps.
Import ListNotations.

Local Open Scope string_scope.
Local Open Scope list_scope.
Local Open Scope Z_scope.

(** ** Python's [str.strip()] *)

(** The ASCII characters for which [str.isspace()] holds: TAB, LF, VT, FF,
    CR, the separators FS, GS, RS, US and the blank. *)
Definition is_space (c : ascii) : bool :=
  let n := N_of_ascii c in
  ((9 <=? n)%N && (n <=? 13)%N) || ((28 <=? n)%N && (n <=? 32)%N).

Fixpoint lstrip (s : string) : string :=
  match s with
  | EmptyString => EmptyString
  | String c r => if is_space c then lstrip r else s
  end.

Fixpoint rstrip (s : string) : string :=
  match s with
  | EmptyString => EmptyString
  | String c r =>
      match rstrip r with
      | EmptyString => if is_space c then EmptyString else String c EmptyString
      | r' => String c r'
      end
  end.

Definition strip (s : string) : string := rstrip (lstrip s).

(** [not s.strip()]: the stripped text is empty. *)
Definition blank (s : string) : bool :=
  match strip s with
  | EmptyString => true
  | _ => false
  end.

(** ** Rows and tables *)

Record product := mk_product {
  p_name : string;
  p_company : string;
  p_cost_price : Q;
  p_quantity : Z;
  p_warehouse_quantity : Z;
  p_store_quantity : Z
}.

Record sale := mk_sale {
  s_sale_type : string;
  s_customer_name : option string;
  s_product_id : string;
  s_product_name : string;
  s_selling_price : Q;
  s_cost_price : Q;
  s_quantity : Z;
  s_total : Q;
  s_profit : Q;
  s_paid_amount : Q;
  s_due_amount : Q
}.

Record dues_row := mk_dues_row {
  d_customer_name : string;
  d_amount_received : Q;
  d_notes : string
}.

Record db := mk_db {
  products : gmap string product;
  sales : list sale;
  dues_received : list dues_row
}.

Definition empty_db : db := mk_db ∅ [] [].

(** ** Outcomes *)

(** The reasons of the [ValueError]s the ledger raises; the arguments are
    the values the source formats into the message. *)
Inductive reason :=
  | ProductIdRequired          (* Product id is required and cannot be empty *)
  | PriceQuantityNegative      (* cost_price and quantity must be non-negative. *)
  | NameCompanyRequired        (* Product name and company are required. *)
  | LocationQuantityNegative   (* warehouse_quantity and store_quantity must be non-negative. *)
  | SplitMismatch              (* warehouse_quantity + store_quantity must equal total quantity *)
  | CostPriceNegative          (* cost_price must be non-negative. *)
  | ProductNotFound (id : string)       (* Product with ID {id} not found *)
  | QuantitiesNegative         (* All quantities must be non-negative. *)
  | PaidExceedsTotal           (* Paid amount cannot exceed total amount *)
  | NotEnoughStoreStock (name : string) (available required : Z)
                               (* Not enough stock in store for {name}. ... *)
  | PaymentNotPositive         (* Payment amount must be positive *)
  | CustomerNameRequired       (* Customer name is required *)
  | TransferNotPositive        (* Transfer quantity must be positive *)
  | BadLocation                (* Locations must be 'warehouse' or 'store' *)
  | SameLocation               (* Source and destination locations must be different *)
  | NotEnoughStock (location : string) (available required : Z).
                               (* Not enough stock in {location}. ... *)

(** [IntegrityError] is the [sqlite3.Error] raised when a statement breaks a
    constraint of the schema; its argument names the constraint. *)
Inductive exn :=
  | ValueError (why : reason)
  | IntegrityError (constraint : string).

Inductive result (A : Type) :=
  | Ok (a : A)
  | Raise (e : exn).
Arguments Ok {A} a.
Arguments Raise {A} e.


(** Comparisons of amounts, as booleans. *)
Definition Qltb (a b : Q) : bool := negb (Qle_bool b a).

(** ** Product functions *)

(** [SELECT * FROM products WHERE id = ?], [None] when no row matches. *)
Definition get_product_by_id (st : db) (product_id : string) : option product :=
  products st !! product_id.

Definition set_products (st : db) (m : gmap string product) : db :=
  mk_db m (sales st) (dues_received st).

Definition add_product (st : db) (product_id name company : string)
    (cost_price : Q) (quantity : Z)
    (warehouse_quantity store_quantity : option Z) : db * result unit :=
  if blank product_id then (st, Raise (ValueError ProductIdRequired))
  else if Qltb cost_price 0 || (quantity <? 0)
  then (st, Raise (ValueError PriceQuantityNegative))
  else if blank name || blank company
  then (st, Raise (ValueError NameCompanyRequired))
  else
    (* omitted location quantities: everything in the warehouse *)
    let warehouse_quantity := default quantity warehouse_quantity in
    let store_quantity := default 0 store_quantity in
    if (warehouse_quantity <? 0) || (store_quantity <? 0)
    then (st, Raise (ValueError LocationQuantityNegative))
    else if negb (warehouse_quantity + store_quantity =? quantity)
    then (st, Raise (ValueError SplitMismatch))
    else
      (* INSERT INTO products; id is the primary key *)
      match products st !! strip product_id with
      | Some _ => (st, Raise (IntegrityError "UNIQUE products.id"))
      | None =>
          (set_products st
             (<[strip product_id :=
                  mk_product (strip name) (strip company) cost_price quantity
                             warehouse_quantity store_quantity]> (products st)),
           Ok tt)
      end.

Definition update_product (st : db) (product_id name company : string)
    (cost_price : Q)
    (quantity warehouse_quantity store_quantity : option Z) : db * result unit :=
  if Qltb cost_price 0 then (st, Raise (ValueError CostPriceNegative))
  else if blank name || blank company
  then (st, Raise (ValueError NameCompanyRequired))
  else
    match get_product_by_id st product_id with
    | None => (st, Raise (ValueError (ProductNotFound product_id)))
    | Some current =>
        (* quantities that were not provided keep the existing values *)
        let quantity := default (p_quantity current) quantity in
        let warehouse_quantity :=
          default (p_warehouse_quantity current) warehouse_quantity in
        let store_quantity :=
          default (p_store_quantity current) store_quantity in
        if (quantity <? 0) || (warehouse_quantity <? 0) || (store_quantity <? 0)
        then (st, Raise (ValueError QuantitiesNegative))
        else if negb (warehouse_quantity + store_quantity =? quantity)
        then (st, Raise (ValueError SplitMismatch))
        else
          (* UPDATE products SET ... WHERE id = ?; commit *)
          (set_products st
             (<[product_id :=
                  mk_product (strip name) (strip company) cost_price quantity
                             warehouse_quantity store_quantity]> (products st)),
           Ok tt)
    end.

Definition delete_product (st : db) (product_id : string) : db * result unit :=
  (* DELETE FROM products WHERE id = ?; commit; then the row count is read *)
  match products st !! product_id with
  | Some _ => (set_products st (delete product_id (products st)), Ok tt)
  | None => (st, Raise (ValueError (ProductNotFound product_id)))
  end.

(** ** Inventory transfer *)

Definition is_location (l : string) : bool :=
  String.eqb l "warehouse" || String.eqb l "store".

Definition transfer_inventory (st : db) (product_id from_location to_location : string)
    (quantity : Z) : db * result unit :=
  if quantity <=? 0 then (st, Raise (ValueError TransferNotPositive))
  else if negb (is_location from_location) || negb (is_location to_location)
  then (st, Raise (ValueError BadLocation))
  else if String.eqb from_location to_location
  then (st, Raise (ValueError SameLocation))
  else
    match get_product_by_id st product_id with
    | None => (st, Raise (ValueError (ProductNotFound product_id)))
    | Some prod =>
        let available :=
          if String.eqb from_location "warehouse"
          then p_warehouse_quantity prod else p_store_quantity prod in
        if available <? quantity
        then (st, Raise (ValueError (NotEnoughStock from_location available quantity)))
        else
          let new_warehouse_qty :=
            if String.eqb from_location "warehouse"
            then p_warehouse_quantity prod - quantity
            else p_warehouse_quantity prod + quantity in
          let new_store_qty :=
            if String.eqb from_location "warehouse"
            then p_store_quantity prod + quantity
            else p_store_quantity prod - quantity in
          (* total quantity remains the same *)
          let total_quantity := p_quantity prod in
          update_product st product_id (p_name prod) (p_company prod)
            (p_cost_price prod) (Some total_quantity)
            (Some new_warehouse_qty) (Some new_store_qty)
    end.

(** ** Sales *)

(** The CHECK constraints of the [sales] table that an inserted row has to
    pass; the NOT NULL columns always receive a value. *)
Definition sales_checks (r : sale) : bool :=
  (String.eqb (s_sale_type r) "retail" || String.eqb (s_sale_type r) "wholesale")
  && Qle_bool 0 (s_selling_price r)
  && Qle_bool 0 (s_cost_price r)
  && (0 <=? s_quantity r)
  && Qle_bool 0 (s_paid_amount r).

Definition set_sales (st : db) (l : list sale) : db :=
  mk_db (products st) l (dues_received st).

Definition add_sale (st : db) (sale_type product_id product_name : string)
    (selling_price cost_price : Q) (quantity : Z) (paid_amount : Q)
    (customer_name : option string) : db * result unit :=
  let total := (selling_price * inject_Z quantity)%Q in
  let profit := ((selling_price - cost_price) * inject_Z quantity)%Q in
  let due_amount := (total - paid_amount)%Q in
  if Qltb due_amount 0 then (st, Raise (ValueError PaidExceedsTotal))
  else
    let row := mk_sale sale_type customer_name product_id product_name
                 selling_price cost_price quantity total profit
                 paid_amount due_amount in
    (* INSERT INTO sales: a broken constraint is rolled back and re-raised *)
    if negb (sales_checks row) then (st, Raise (IntegrityError "CHECK sales"))
    else
      (* conn.commit(): the sale row is persisted from here on *)
      let st1 := set_sales st (sales st ++ [row]) in
      (* also update product quantity - deduct from store *)
      match get_product_by_id st1 product_id with
      | None => (st1, Raise (ValueError (ProductNotFound product_id)))
      | Some prod =>
          let current_store_qty := p_store_quantity prod in
          if current_store_qty <? quantity
          then (st1, Raise (ValueError
                        (NotEnoughStoreStock product_name current_store_qty quantity)))
          else
            let new_store_quantity := current_store_qty - quantity in
            let new_total_quantity := p_quantity prod - quantity in
            update_product st1 product_id (p_name prod) (p_company prod)
              (p_cost_price prod) (Some new_total_quantity)
              (Some (p_warehouse_quantity prod)) (Some new_store_quantity)
      end.

(** ** Customer dues *)

Definition set_dues_received (st : db) (l : list dues_row) : db :=
  mk_db (products st) (sales st) l.

Definition add_dues_payment (st : db) (customer_name : string) (amount : Q)
    (notes : string) : db * result unit :=
  if Qle_bool amount 0 then (st, Raise (ValueError PaymentNotPositive))
  else if blank customer_name then (st, Raise (ValueError CustomerNameRequired))
  else
    (set_dues_received st
       (dues_received st ++ [mk_dues_row (strip customer_name) amount (strip notes)]),
     Ok tt).

(** [COALESCE(SUM(...), 0)] over the selected values. *)
Definition sum_Q (l : list Q) : Q := fold_right Qplus 0%Q l.

(** [WHERE sale_type = 'wholesale' AND customer_name = ? AND due_amount > 0];
    a NULL customer name equals no name. *)
Definition due_clause (customer_name : string) (r : sale) : bool :=
  String.eqb (s_sale_type r) "wholesale"
  && match s_customer_name r with
     | Some n => String.eqb n customer_name
     | None => false
     end
  && Qltb 0 (s_due_amount r).

(** [WHERE customer_name = ?] on [dues_received]. *)
Definition received_clause (customer_name : string) (r : dues_row) : bool :=
  String.eqb (d_customer_name r) customer_name.

Definition total_dues (st : db) (customer_name : string) : Q :=
  sum_Q (map s_due_amount (List.filter (due_clause customer_name) (sales st))).

Definition total_received (st : db) (customer_name : string) : Q :=
  sum_Q (map d_amount_received
           (List.filter (received_clause customer_name) (dues_received st))).

(** Python's [max(0, x)]: [x] when it is greater than 0, else 0. *)
Definition max0 (x : Q) : Q := if Qltb 0 x then x else 0%Q.

Definition get_customer_dues_by_name (st : db) (customer_name : string) : Q :=
  max0 (total_dues st customer_name - total_received st customer_name)%Q.

(** ** Schema and migrations *)

(** What [init_database] looks at and changes in the database file: which
    tables exist, the column names [PRAGMA table_info] reports for
    [products] and [sales], the indexes, and the rows.  A table that exists
    has at least the columns of the first release; [warehouse_quantity],
    [store_quantity] and [due_amount] came later and may be missing.  The
    field of a missing column is not observable in a row, and
    [ALTER TABLE ... ADD COLUMN ... DEFAULT 0] gives it the value 0 in every
    row. *)
Record schema := mk_schema {
  products_columns : option (list string);
  customers_table : bool;
  sales_columns : option (list string);
  dues_received_table : bool;
  expenses_table : bool;
  indexes : gset string
}.

Record file := mk_file {
  file_schema : schema;
  file_rows : db
}.

Definition set_products_columns (f : file) (c : list string) : file :=
  let s := file_schema f in
  mk_file (mk_schema (Some c) (customers_table s) (sales_columns s)
             (dues_received_table s) (expenses_table s) (indexes s))
          (file_rows f).

Definition set_sales_columns (f : file) (c : list string) : file :=
  let s := file_schema f in
  mk_file (mk_schema (products_columns s) (customers_table s) (Some c)
             (dues_received_table s) (expenses_table s) (indexes s))
          (file_rows f).

Definition set_rows (f : file) (d : db) : file := mk_file (file_schema f) d.

(** [CREATE TABLE IF NOT EXISTS products (...)]; a new table has no rows. *)
Definition _create_products_table (f : file) : file :=
  match products_columns (file_schema f) with
  | Some _ => f
  | None =>
      set_rows
        (set_products_columns f
           ["id"; "name"; "company"; "cost_price"; "quantity";
            "warehouse_quantity"; "store_quantity"; "created_at"])
        (set_products (file_rows f) ∅)
  end.

Definition _create_customers_table (f : file) : file :=
  let s := file_schema f in
  mk_file (mk_schema (products_columns s) true (sales_columns s)
             (dues_received_table s) (expenses_table s) (indexes s))
          (file_rows f).

Definition _create_sales_table (f : file) : file :=
  match sales_columns (file_schema f) with
  | Some _ => f
  | None =>
      set_rows
        (set_sales_columns f
           ["id"; "date"; "sale_type"; "customer_name"; "product_id";
            "product_name"; "selling_price"; "cost_price"; "quantity";
            "total"; "profit"; "paid_amount"; "due_amount"])
        (set_sales (file_rows f) [])
  end.

Definition _create_dues_received_table (f : file) : file :=
  let s := file_schema f in
  mk_file (mk_schema (products_columns s) (customers_table s) (sales_columns s)
             true (expenses_table s) (indexes s))
          (if dues_received_table s then file_rows f
           else set_dues_received (file_rows f) []).

Definition _create_expenses_table (f : file) : file :=
  let s := file_schema f in
  mk_file (mk_schema (products_columns s) (customers_table s) (sales_columns s)
             (dues_received_table s) true (indexes s))
          (file_rows f).

(** [name in columns] on the list read from [PRAGMA table_info]. *)
Definition has_column (name : string) (columns : list string) : bool :=
  existsb (String.eqb name) columns.

Definition table_info (c : option (list string)) : list string := default [] c.

Definition with_due_amount (d : Q) (r : sale) : sale :=
  mk_sale (s_sale_type r) (s_customer_name r) (s_product_id r) (s_product_name r)
    (s_selling_price r) (s_cost_price r) (s_quantity r) (s_total r) (s_profit r)
    (s_paid_amount r) d.

Definition _add_due_amount_to_sales_table (f : file) : file :=
  let columns := table_info (sales_columns (file_schema f)) in
  if negb (has_column "due_amount" columns)
  then set_rows (set_sales_columns f (columns ++ ["due_amount"]))
         (set_sales (file_rows f) (map (with_due_amount 0%Q) (sales (file_rows f))))
  else f.

Definition with_warehouse_quantity (w : Z) (p : product) : product :=
  mk_product (p_name p) (p_company p) (p_cost_price p) (p_quantity p)
    w (p_store_quantity p).

Definition with_store_quantity (s : Z) (p : product) : product :=
  mk_product (p_name p) (p_company p) (p_cost_price p) (p_quantity p)
    (p_warehouse_quantity p) s.

(** [WHERE warehouse_quantity = 0 AND store_quantity = 0 AND quantity > 0] *)
Definition unsplit (p : product) : bool :=
  (p_warehouse_quantity p =? 0) && (p_store_quantity p =? 0) && (0 <? p_quantity p).

(** [SET warehouse_quantity = quantity / 2,
        store_quantity = quantity / 2 + (quantity % 2)] on the rows selected;
    SQLite's integer [/] and [%] truncate towards zero. *)
Definition split_half (p : product) : product :=
  if unsplit p
  then mk_product (p_name p) (p_company p) (p_cost_price p) (p_quantity p)
         (Z.quot (p_quantity p) 2)
         (Z.quot (p_quantity p) 2 + Z.rem (p_quantity p) 2)
  else p.

(** [SELECT COUNT( * ) FROM products WHERE ...] *)
Definition count_unsplit (m : gmap string product) : nat :=
  size (filter (fun kv => unsplit kv.2 = true) m).

Definition alter_products (g : product -> product) (f : file) : file :=
  set_rows f (set_products (file_rows f) (g <$> products (file_rows f))).

Definition _add_warehouse_store_columns (f : file) : file :=
  let columns := table_info (products_columns (file_schema f)) in
  let f1 :=
    if negb (has_column "warehouse_quantity" columns)
    then alter_products (with_warehouse_quantity 0)
           (set_products_columns f
              (table_info (products_columns (file_schema f)) ++ ["warehouse_quantity"]))
    else f in
  let f2 :=
    if negb (has_column "store_quantity" columns)
    then alter_products (with_store_quantity 0)
           (set_products_columns f1
              (table_info (products_columns (file_schema f1)) ++ ["store_quantity"]))
    else f1 in
  (* migrate existing data: the test reads the column list taken above *)
  if has_column "warehouse_quantity" columns || has_column "store_quantity" columns
  then
    if (0 <? count_unsplit (products (file_rows f2)))%nat
    then alter_products split_half f2
    else f2
  else f2.

(** The indexes [_create_indexes] creates, each with IF NOT EXISTS. *)
Definition ledger_indexes : gset string :=
  {[ "idx_products_name"; "idx_products_company"; "idx_sales_date";
     "idx_sales_customer"; "idx_sales_product_id";
     "idx_customers_name"; "idx_customers_phone";
     "idx_dues_customer"; "idx_dues_date";
     "idx_expenses_date"; "idx_expenses_category" ]}.

Definition _create_indexes (f : file) : file :=
  let s := file_schema f in
  mk_file (mk_schema (products_columns s) (customers_table s) (sales_columns s)
             (dues_received_table s) (expenses_table s)
             (indexes s ∪ ledger_indexes))
          (file_rows f).

Definition init_database (f : file) : file :=
  _create_indexes
    (_add_warehouse_store_columns
       (_add_due_amount_to_sales_table
          (_create_expenses_table
             (_create_dues_received_table
                (_create_sales_table
                   (_create_customers_table
                      (_create_products_table f))))))).

(** The backfill of the warehouse/store split on a products table. *)
Definition backfill (m : gmap string product) : gmap string product :=
  if (0 <? count_unsplit m)%nat then split_half <$> m else m.

(** A file that has every table, column and index of the current release. *)
Definition migrated (f : file) : Prop :=
  let s := file_schema f in
  (exists c, products_columns s = Some c
      /\ has_column "warehouse_quantity" c = true
      /\ has_column "store_quantity" c = true)
  /\ customers_table s = true
  /\ (exists c, sales_columns s = Some c /\ has_column "due_amount" c = true)
  /\ dues_received_table s = true
  /\ expenses_table s = true
  /\ ledger_indexes ⊆ indexes s.

(** ** Invariants of the ledger *)

(** The quantity invariant of a product row. *)
Definition qty_inv (p : product) : Prop :=
  p_warehouse_quantity p + p_store_quantity p = p_quantity p
  /\ 0 <= p_quantity p
  /\ 0 <= p_warehouse_quantity p
  /\ 0 <= p_store_quantity p.

(** Text as [add_product] and [update_product] store it: stripped, and not
    empty. *)
Definition stored_text (s : string) : Prop := strip s = s /\ s <> EmptyString.

Definition names_stripped (p : product) : Prop :=
  strip (p_name p) = p_name p /\ strip (p_company p) = p_company p.

(** A product row as the ledger writes it. *)
Definition wf_product (p : product) : Prop :=
  stored_text (p_name p) /\ stored_text (p_company p)
  /\ (0 <= p_cost_price p)%Q /\ qty_inv p.

Definition wf_db (st : db) : Prop :=
  map_Forall (fun _ p => wf_product p) (products st).

(** One call of a function that writes product rows, with its outcome. *)
Inductive product_call (st : db) : db -> result unit -> Prop :=
  | call_add_product product_id name company cost_price quantity w s st' r :
      add_product st product_id name company cost_price quantity w s = (st', r) ->
      product_call st st' r
  | call_update_product product_id name company cost_price quantity w s st' r :
      update_product st product_id name company cost_price quantity w s = (st', r) ->
      product_call st st' r
  | call_transfer_inventory product_id from_location to_location quantity st' r :
      transfer_inventory st product_id from_location to_location quantity = (st', r) ->
      product_call st st' r
  | call_add_sale sale_type product_id product_name selling_price cost_price
      quantity paid_amount customer_name st' r :
      add_sale st sale_type product_id product_name selling_price cost_price
        quantity paid_amount customer_name = (st', r) ->
      product_call st st' r.

(** One call of any mutating function of the ledger. *)
Inductive ledger_call (st st' : db) : Prop :=
  | call_product r : product_call st st' r -> ledger_call st st'
  | call_delete_product product_id r :
      delete_product st product_id = (st', r) -> ledger_call st st'
  | call_add_dues_payment customer_name amount notes r :
      add_dues_payment st customer_name amount notes = (st', r) ->
      ledger_call st st'.

(** The databases the ledger can produce from an empty one. *)
Inductive reachable : db -> Prop :=
  | reachable_empty : reachable empty_db
  | reachable_call st st' : reachable st -> ledger_call st st' -> reachable st'.

(** ** The outstanding due in the words of the specification *)

(** SUM(sale.due_amount) WHERE sale_type = 'wholesale' AND due_amount > 0
    AND customer_name = X *)
Fixpoint spec_due_sum (X : string) (l : list sale) : Q :=
  match l with
  | [] => 0%Q
  | r :: l' =>
      if decide (s_sale_type r = "wholesale" /\ s_customer_name r = Some X)
      then if Qlt_le_dec 0 (s_due_amount r)
           then (s_due_amount r + spec_due_sum X l')%Q
           else spec_due_sum X l'
      else spec_due_sum X l'
  end.

(** SUM(dues_received.amount_received) WHERE customer_name = X *)
Fixpoint spec_received_sum (X : string) (l : list dues_row) : Q :=
  match l with
  | [] => 0%Q
  | r :: l' =>
      if decide (d_customer_name r = X)
      then (d_amount_received r + spec_received_sum X l')%Q
      else spec_received_sum X l'
  end.

(** ... minus ..., floored at 0 *)
Definition spec_outstanding_due (st : db) (X : string) : Q :=
  Qmax 0 (spec_due_sum X (sales st) - spec_received_sum X (dues_received st)).

(** ** Example databases *)

(** Product P1 with 20 units, 5 of them moved to the store. *)
Definition shop0 : db :=
  (add_product empty_db "P1" "Pen" "Acme" 6 20 None None).1.

Definition shop : db :=
  (transfer_inventory shop0 "P1" "warehouse" "store" 5).1.

(** A database file written before the warehouse/store split, holding one
    product with 5 units. *)
Definition legacy_file : file :=
  mk_file
    (mk_schema
       (Some ["id"; "name"; "company"; "cost_price"; "quantity"; "created_at"])
       true
       (Some ["id"; "date"; "sale_type"; "customer_name"; "product_id";
              "product_name"; "selling_price"; "cost_price"; "quantity";
              "total"; "profit"; "paid_amount"; "due_amount"])
       true true ∅)
    (mk_db {[ "P1" := mk_product "Pen" "Acme" 6 5 0 0 ]} [] []).

(** A wholesale sale to Ali: total 100, paid 40, so 60 are due. *)
Definition shop_ali : db :=
  (add_sale shop "wholesale" "P1" "Pen" 50 6 2 40 (Some "Ali")).1.

(** The row [add_sale] inserts for its arguments. *)
Definition sale_row (sale_type : string) (customer_name : option string)
    (product_id product_name : string) (selling_price cost_price : Q)
    (quantity : Z) (paid_amount : Q) : sale :=
  mk_sale sale_type customer_name product_id product_name selling_price
    cost_price quantity
    (selling_price * inject_Z quantity)%Q
    ((selling_price - cost_price) * inject_Z quantity)%Q
    paid_amount
    (selling_price * inject_Z quantity - paid_amount)%Q.

(** The row [add_sale] leaves for a product after selling [quantity] units. *)
Definition sold (quantity : Z) (p : product) : product :=
  mk_product (strip (p_name p)) (strip (p_company p)) (p_cost_price p)
    (p_quantity p - quantity) (p_warehouse_quantity p)
    (p_store_quantity p - quantity).

(** Every wholesale sale on record names its customer. *)
Definition wholesale_named (st : db) : Prop :=
  Forall (fun r => s_sale_type r = "wholesale" -> s_customer_name r <> None)
         (sales st).

(** * Properties *)

(** ** Comparisons, text *)

Lemma Qltb_lt a b : Qltb a b = true <-> (a < b)%Q.
Proof.
  unfold Qltb. rewrite negb_true_iff.
  split; intros H.
  - apply Qnot_le_lt. intros Hle. apply Qle_bool_iff in Hle. congruence.
  - destruct (Qle_bool b a) eqn:E; [|reflexivity].
    apply Qle_bool_iff in E. apply Qle_not_lt in E. contradiction.
Qed.

Lemma Qltb_ge a b : Qltb a b = false <-> (b <= a)%Q.
Proof.
  unfold Qltb. rewrite negb_false_iff. apply Qle_bool_iff.
Qed.

Lemma Qle_bool_false a b : Qle_bool a b = false <-> (b < a)%Q.
Proof.
  rewrite <- Qltb_lt. unfold Qltb. apply symmetry, negb_true_iff.
Qed.

Lemma rstrip_idem s : rstrip (rstrip s) = rstrip s.
Proof.
  induction s as [|c r IH]; [reflexivity|].
  simpl. destruct (rstrip r) as [|c' r'] eqn:E.
  - destruct (is_space c) eqn:Ec; simpl; [reflexivity|]. now rewrite Ec.
  - simpl in *. now rewrite IH.
Qed.

Lemma lstrip_head s :
  lstrip s = EmptyString \/ exists c r, lstrip s = String c r /\ is_space c = false.
Proof.
  induction s as [|c r IH]; [now left|].
  simpl. destruct (is_space c) eqn:Ec; [exact IH|].
  right. now exists c, r.
Qed.

Lemma rstrip_head c r :
  is_space c = false -> exists r', rstrip (String c r) = String c r'.
Proof.
  intros Hc. simpl. destruct (rstrip r) as [|c' r'].
  - rewrite Hc. now exists EmptyString.
  - now exists (String c' r').
Qed.

Lemma strip_idem s : strip (strip s) = strip s.
Proof.
  unfold strip.
  destruct (lstrip_head s) as [E|(c & r & E & Hc)]; rewrite E.
  - reflexivity.
  - destruct (rstrip_head c r Hc) as [r' E']. rewrite E'.
    simpl lstrip. rewrite Hc, <- E'. apply rstrip_idem.
Qed.

Lemma blank_false s : blank s = false <-> strip s <> EmptyString.
Proof.
  unfold blank. destruct (strip s); split; intros H; congruence.
Qed.

Lemma stored_text_strip s : blank s = false -> stored_text (strip s).
Proof.
  intros H. split; [apply strip_idem | now apply blank_false].
Qed.

Lemma stored_text_not_blank s : stored_text s -> blank s = false.
Proof.
  intros [E N]. apply blank_false. now rewrite E.
Qed.

(** Boolean tests of the source as propositions. *)
Ltac tests :=
  repeat match goal with
    | H : _ && _ = true |- _ => apply andb_true_iff in H; destruct H
    | H : _ || _ = false |- _ => apply orb_false_iff in H; destruct H
    | H : negb _ = true |- _ => apply negb_true_iff in H
    | H : negb _ = false |- _ => apply negb_false_iff in H
    | H : (_ <? _) = true |- _ => apply Z.ltb_lt in H
    | H : (_ <? _) = false |- _ => apply Z.ltb_ge in H
    | H : (_ <=? _) = true |- _ => apply Z.leb_le in H
    | H : (_ <=? _) = false |- _ => apply Z.leb_gt in H
    | H : (_ =? _) = true |- _ => apply Z.eqb_eq in H
    | H : (_ =? _) = false |- _ => apply Z.eqb_neq in H
    | H : Qltb _ _ = true |- _ => apply Qltb_lt in H
    | H : Qltb _ _ = false |- _ => apply Qltb_ge in H
    | H : Qle_bool _ _ = true |- _ => apply Qle_bool_iff in H
    | H : Qle_bool _ _ = false |- _ => apply Qle_bool_false in H
    | H : String.eqb _ _ = true |- _ => apply String.eqb_eq in H
    | H : String.eqb _ _ = false |- _ => apply String.eqb_neq in H
    end.

(** ** What each product function does *)

Lemma update_product_ok st product_id name company cost_price q w s st' :
  update_product st product_id name company cost_price q w s = (st', Ok tt) ->
  exists current,
    products st !! product_id = Some current
    /\ st' = set_products st
               (<[product_id :=
                    mk_product (strip name) (strip company) cost_price
                      (default (p_quantity current) q)
                      (default (p_warehouse_quantity current) w)
                      (default (p_store_quantity current) s)]> (products st))
    /\ qty_inv (mk_product (strip name) (strip company) cost_price
                  (default (p_quantity current) q)
                  (default (p_warehouse_quantity current) w)
                  (default (p_store_quantity current) s))
    /\ (0 <= cost_price)%Q /\ blank name = false /\ blank company = false.
Proof.
  unfold update_product, get_product_by_id. intros H.
  repeat case_match; simplify_eq. tests.
  eexists; repeat split; simpl; eauto; lia.
Qed.

Lemma update_product_raise st product_id name company cost_price q w s st' e :
  update_product st product_id name company cost_price q w s = (st', Raise e) ->
  st' = st.
Proof.
  unfold update_product. intros H. repeat case_match; simplify_eq; reflexivity.
Qed.

Lemma add_product_ok st product_id name company cost_price quantity w s st' :
  add_product st product_id name company cost_price quantity w s = (st', Ok tt) ->
  products st !! strip product_id = None
  /\ st' = set_products st
             (<[strip product_id :=
                  mk_product (strip name) (strip company) cost_price quantity
                    (default quantity w) (default 0 s)]> (products st))
  /\ qty_inv (mk_product (strip name) (strip company) cost_price quantity
                (default quantity w) (default 0 s))
  /\ (0 <= cost_price)%Q /\ blank name = false /\ blank company = false.
Proof.
  unfold add_product. intros H.
  repeat case_match; simplify_eq. tests.
  repeat split; simpl; eauto; lia.
Qed.

Lemma add_product_raise st product_id name company cost_price quantity w s st' e :
  add_product st product_id name company cost_price quantity w s = (st', Raise e) ->
  st' = st.
Proof.
  unfold add_product. intros H. repeat case_match; simplify_eq; reflexivity.
Qed.

Lemma transfer_inventory_raise st product_id from_location to_location quantity st' e :
  transfer_inventory st product_id from_location to_location quantity = (st', Raise e) ->
  st' = st.
Proof.
  unfold transfer_inventory. intros H.
  repeat case_match; simplify_eq; try reflexivity;
    eapply update_product_raise; eassumption.
Qed.

Lemma transfer_inventory_ok st product_id from_location to_location quantity st' :
  transfer_inventory st product_id from_location to_location quantity = (st', Ok tt) ->
  exists prod w' s',
    products st !! product_id = Some prod
    /\ 0 < quantity
    /\ (from_location = "warehouse" /\ to_location = "store"
        /\ w' = p_warehouse_quantity prod - quantity
        /\ s' = p_store_quantity prod + quantity
        \/ from_location = "store" /\ to_location = "warehouse"
        /\ w' = p_warehouse_quantity prod + quantity
        /\ s' = p_store_quantity prod - quantity)
    /\ update_product st product_id (p_name prod) (p_company prod)
         (p_cost_price prod) (Some (p_quantity prod)) (Some w') (Some s')
       = (st', Ok tt).
Proof.
  unfold transfer_inventory, get_product_by_id. intros H.
  destruct (quantity <=? 0) eqn:Hq; [discriminate|].
  destruct (negb (is_location from_location) || negb (is_location to_location))
    eqn:Hl; [discriminate|].
  destruct (String.eqb from_location to_location) eqn:Hne; [discriminate|].
  destruct (products st !! product_id) as [prod|] eqn:Hp; [|discriminate].
  tests. unfold is_location in *.
  match goal with Hf : _ || _ = true, Ht : _ || _ = true |- _ =>
    apply orb_true_iff in Hf, Ht; rename Hf into Hfrom; rename Ht into Hto end.
  destruct (String.eqb from_location "warehouse") eqn:Hfw;
    destruct (p_warehouse_quantity prod <? quantity) eqn:Hw;
    destruct (p_store_quantity prod <? quantity) eqn:Hs;
    try discriminate; tests.
  all: eexists prod, _, _; split; [reflexivity|]; split; [lia|];
    split; [|exact H].
  all: destruct Hfrom as [Hf|Hf], Hto as [Ht|Ht]; tests; subst;
    try congruence; ((left; repeat split; congruence) || (right; repeat split; congruence)).
Qed.


(** [add_sale] in terms of the row it inserts. *)
Lemma add_sale_unfold st sale_type product_id product_name selling_price
    cost_price quantity paid_amount customer_name :
  add_sale st sale_type product_id product_name selling_price cost_price
    quantity paid_amount customer_name =
  let row := sale_row sale_type customer_name product_id product_name
               selling_price cost_price quantity paid_amount in
  if Qltb (s_due_amount row) 0 then (st, Raise (ValueError PaidExceedsTotal))
  else if negb (sales_checks row) then (st, Raise (IntegrityError "CHECK sales"))
  else
    let st1 := set_sales st (sales st ++ [row]) in
    match products st !! product_id with
    | None => (st1, Raise (ValueError (ProductNotFound product_id)))
    | Some prod =>
        if p_store_quantity prod <? quantity
        then (st1, Raise (ValueError
                      (NotEnoughStoreStock product_name (p_store_quantity prod) quantity)))
        else
          update_product st1 product_id (p_name prod) (p_company prod)
            (p_cost_price prod) (Some (p_quantity prod - quantity))
            (Some (p_warehouse_quantity prod)) (Some (p_store_quantity prod - quantity))
    end.
Proof. reflexivity. Qed.

(** The four ways a call of [add_sale] ends. *)
Lemma add_sale_cases st sale_type product_id product_name selling_price
    cost_price quantity paid_amount customer_name st' r :
  add_sale st sale_type product_id product_name selling_price cost_price
    quantity paid_amount customer_name = (st', r) ->
  let row := sale_row sale_type customer_name product_id product_name
               selling_price cost_price quantity paid_amount in
  (* rejected before the connection is opened *)
  ((s_total row < paid_amount)%Q /\ st' = st
   /\ r = Raise (ValueError PaidExceedsTotal))
  (* the insert breaks a constraint and is rolled back *)
  \/ (sales_checks row = false /\ st' = st
      /\ r = Raise (IntegrityError "CHECK sales"))
  (* the sale is committed, then the call raises *)
  \/ ((0 <= s_due_amount row)%Q /\ sales_checks row = true
      /\ st' = set_sales st (sales st ++ [row])
      /\ exists why, r = Raise (ValueError why))
  (* the sale is committed and the stock deducted *)
  \/ ((0 <= s_due_amount row)%Q /\ sales_checks row = true
      /\ r = Ok tt
      /\ exists prod,
           products st !! product_id = Some prod
           /\ quantity <= p_store_quantity prod
           /\ qty_inv (sold quantity prod)
           /\ st' = set_products (set_sales st (sales st ++ [row]))
                      (<[product_id := sold quantity prod]> (products st))).
Proof.
  rewrite add_sale_unfold. intros H row. cbv zeta in H. fold row in H.
  destruct (Qltb (s_due_amount row) 0) eqn:Hdue.
  { left. simplify_eq. tests. repeat split.
    revert Hdue. unfold row; simpl. lra. }
  destruct (negb (sales_checks row)) eqn:Hchk.
  { right; left. simplify_eq. tests. repeat split. exact Hchk. }
  tests. right; right.
  destruct (products st !! product_id) as [prod|] eqn:Hp.
  2:{ left. simplify_eq. repeat split; eauto. }
  destruct (p_store_quantity prod <? quantity) eqn:Hs.
  { left. simplify_eq. repeat split; eauto. }
  tests. destruct r as [[]|e].
  - right. apply update_product_ok in H as (cur & Hc & -> & Hinv & _).
    simpl in Hc. rewrite Hp in Hc. simplify_eq.
    repeat split; try assumption. exists cur. repeat split; try assumption;
      apply Hinv.
  - left. pose proof H as H'. apply update_product_raise in H as ->.
    repeat split; try assumption.
    unfold update_product in H'. repeat case_match; simplify_eq; eauto.
Qed.

(** ** Sales ledger *)

(** C6. A successful [add_sale] of [quantity] units lowers the product's
    [store_quantity] and its total [quantity] by exactly [quantity] and leaves
    its [warehouse_quantity] as it was; the other product rows are not
    touched. *)
Theorem add_sale_deducts_store st sale_type product_id product_name
    selling_price cost_price quantity paid_amount customer_name st' :
  add_sale st sale_type product_id product_name selling_price cost_price
    quantity paid_amount customer_name = (st', Ok tt) ->
  exists p p',
    products st !! product_id = Some p
    /\ products st' !! product_id = Some p'
    /\ p_store_quantity p' = p_store_quantity p - quantity
    /\ p_quantity p' = p_quantity p - quantity
    /\ p_warehouse_quantity p' = p_warehouse_quantity p
    /\ forall other, other <> product_id ->
         products st' !! other = products st !! other.
Proof.
  intros H. apply add_sale_cases in H.
  destruct H as [(_ & _ & ?)|[(_ & _ & ?)|[(_ & _ & _ & ? & ?)|H]]];
    try discriminate.
  destruct H as (_ & _ & _ & prod & Hp & _ & _ & ->).
  exists prod, (sold quantity prod). simpl.
  rewrite lookup_insert_eq. repeat split; try assumption.
  intros other Hne. now rewrite lookup_insert_ne.
Qed.

Lemma add_sale_deducts_store_witness :
  exists p p',
    products shop !! "P1" = Some p
    /\ products (add_sale shop "retail" "P1" "Pen" 10 6 3 30 None).1 !! "P1" = Some p'
    /\ p_store_quantity p' = p_store_quantity p - 3
    /\ p_quantity p' = p_quantity p - 3
    /\ p_warehouse_quantity p' = p_warehouse_quantity p
    /\ forall other, other <> "P1" ->
         products (add_sale shop "retail" "P1" "Pen" 10 6 3 30 None).1 !! other
         = products shop !! other.
Proof.
  apply (add_sale_deducts_store shop "retail" "P1" "Pen" 10 6 3 30 None).
  vm_compute. reflexivity.
Defined.

(** C3. The row a successful [add_sale] persists has
    [total = selling_price * quantity],
    [profit = (selling_price - cost_price) * quantity] and
    [due_amount = total - paid_amount], with [due_amount >= 0]; a call with
    [paid_amount > total] raises and leaves the whole database, sales and
    stock, as it was. *)
Theorem add_sale_amounts st sale_type product_id product_name selling_price
    cost_price quantity paid_amount customer_name st' r :
  add_sale st sale_type product_id product_name selling_price cost_price
    quantity paid_amount customer_name = (st', r) ->
  (r = Ok tt ->
   exists row,
     sales st' = sales st ++ [row]
     /\ s_selling_price row = selling_price
     /\ s_cost_price row = cost_price
     /\ s_quantity row = quantity
     /\ s_paid_amount row = paid_amount
     /\ s_total row = (s_selling_price row * inject_Z (s_quantity row))%Q
     /\ s_profit row =
          ((s_selling_price row - s_cost_price row) * inject_Z (s_quantity row))%Q
     /\ s_due_amount row = (s_total row - s_paid_amount row)%Q
     /\ (0 <= s_due_amount row)%Q)
  /\ ((selling_price * inject_Z quantity < paid_amount)%Q ->
      st' = st /\ r = Raise (ValueError PaidExceedsTotal)).
Proof.
  intros H. split.
  - intros ->. apply add_sale_cases in H.
    destruct H as [(_ & _ & ?)|[(_ & _ & ?)|[(_ & _ & _ & ? & ?)|H]]];
      try discriminate.
    destruct H as (Hdue & _ & _ & prod & _ & _ & _ & ->).
    eexists. split; [reflexivity|]. repeat split. exact Hdue.
  - intros Hpaid. rewrite add_sale_unfold in H. cbv zeta in H.
    destruct (Qltb _ 0) eqn:Hd.
    + now simplify_eq.
    + tests. simpl in Hd. lra.
Qed.

Lemma add_sale_amounts_witness :
  (exists row,
     sales (add_sale shop "retail" "P1" "Pen" 10 6 3 30 None).1 = sales shop ++ [row]
     /\ s_total row = (10 * inject_Z 3)%Q
     /\ s_profit row = ((10 - 6) * inject_Z 3)%Q
     /\ s_due_amount row = (s_total row - 30)%Q
     /\ (0 <= s_due_amount row)%Q)
  /\ add_sale shop "retail" "P1" "Pen" 10 6 3 31 None
     = (shop, Raise (ValueError PaidExceedsTotal)).
Proof.
  split.
  - destruct (add_sale_amounts shop "retail" "P1" "Pen" 10 6 3 30 None
                (add_sale shop "retail" "P1" "Pen" 10 6 3 30 None).1 (Ok tt))
      as [Hok _]; [vm_compute; reflexivity|].
    destruct (Hok eq_refl) as (row & Hs & Hp & Hc & Hq & Hpaid & Ht & Hpr & Hd & Hge).
    exists row. rewrite Hp, Hc, Hq in *. rewrite Hpaid in Hd.
    repeat split; assumption.
  - destruct (add_sale_amounts shop "retail" "P1" "Pen" 10 6 3 31 None
                (add_sale shop "retail" "P1" "Pen" 10 6 3 31 None).1
                (add_sale shop "retail" "P1" "Pen" 10 6 3 31 None).2)
      as [_ Hrej]; [vm_compute; reflexivity|].
    destruct Hrej as [Hst Hr]; [vm_compute; reflexivity|].
    rewrite (surjective_pairing (add_sale shop "retail" "P1" "Pen" 10 6 3 31 None)).
    now rewrite Hst, Hr.
Defined.

(** What the code does where C1 expects a no-op: once the insert has passed
    the constraints of the table, the sale row is committed before the
    product is looked up and before the stock is compared, so a call that
    then raises leaves the row behind.  The products table is not changed. *)
Lemma add_sale_rejected_after_commit st sale_type product_id product_name
    selling_price cost_price quantity paid_amount customer_name :
  let row := sale_row sale_type customer_name product_id product_name
               selling_price cost_price quantity paid_amount in
  (0 <= s_due_amount row)%Q ->
  sales_checks row = true ->
  match products st !! product_id with
  | None => True
  | Some prod => p_store_quantity prod < quantity
  end ->
  exists why,
    add_sale st sale_type product_id product_name selling_price cost_price
      quantity paid_amount customer_name
    = (set_sales st (sales st ++ [row]), Raise (ValueError why)).
Proof.
  intros row Hdue Hchk Hp. rewrite add_sale_unfold. cbv zeta. fold row.
  apply Qltb_ge in Hdue. rewrite Hdue, Hchk. simpl negb. cbv iota.
  destruct (products st !! product_id) as [prod|]; [|eauto].
  apply Z.ltb_lt in Hp. rewrite Hp. eauto.
Qed.

(** C1, at the failing inputs.  In [shop] product P1 has 5 units in the
    store and there is no product P9.  Selling 8 units of P1, or 3 units of
    P9, raises, and the sales table has gained the row of the rejected sale;
    the products table is unchanged. *)
Theorem add_sale_rejection_leaves_sale_row :
  add_sale shop "retail" "P1" "Pen" 10 6 8 80 None
  = (set_sales shop
       [sale_row "retail" None "P1" "Pen" 10 6 8 80],
     Raise (ValueError (NotEnoughStoreStock "Pen" 5 8)))
  /\ add_sale shop "retail" "P9" "Ink" 10 6 3 30 None
     = (set_sales shop
          [sale_row "retail" None "P9" "Ink" 10 6 3 30],
        Raise (ValueError (ProductNotFound "P9")))
  /\ sales shop = []
  /\ products shop !! "P1" = Some (mk_product "Pen" "Acme" 6 20 15 5)
  /\ products shop !! "P9" = None.
Proof. repeat split; vm_compute; reflexivity. Qed.

(** C5. A successful [transfer_inventory] keeps the product's total
    [quantity], takes exactly [quantity] from the field of the source location
    and adds it to the field of the destination, and keeps [name], [company]
    and [cost_price]; nothing else in the database changes.  The product's
    name and company are rewritten stripped, which is what they already are
    in a row the ledger stored. *)
Theorem transfer_inventory_conserves st product_id from_location to_location
    quantity st' p :
  transfer_inventory st product_id from_location to_location quantity = (st', Ok tt) ->
  products st !! product_id = Some p ->
  names_stripped p ->
  exists p',
    products st' !! product_id = Some p'
    /\ p_quantity p' = p_quantity p
    /\ (from_location = "warehouse" /\ to_location = "store"
        /\ p_warehouse_quantity p' = p_warehouse_quantity p - quantity
        /\ p_store_quantity p' = p_store_quantity p + quantity
        \/ from_location = "store" /\ to_location = "warehouse"
        /\ p_store_quantity p' = p_store_quantity p - quantity
        /\ p_warehouse_quantity p' = p_warehouse_quantity p + quantity)
    /\ p_name p' = p_name p
    /\ p_company p' = p_company p
    /\ p_cost_price p' = p_cost_price p
    /\ (forall other, other <> product_id ->
          products st' !! other = products st !! other)
    /\ sales st' = sales st
    /\ dues_received st' = dues_received st.
Proof.
  intros H Hp [Hn Hc].
  apply transfer_inventory_ok in H as (prod & w' & s' & Hp' & Hq & Hdir & H).
  rewrite Hp in Hp'. simplify_eq.
  apply update_product_ok in H as (cur & Hcur & -> & _).
  rewrite Hp in Hcur. simplify_eq. simpl.
  eexists. rewrite lookup_insert_eq. split; [reflexivity|]. simpl.
  repeat split; try assumption.
  - destruct Hdir as [(-> & -> & -> & ->)|(-> & -> & -> & ->)];
      [left | right]; repeat split.
  - intros other Hne. now rewrite lookup_insert_ne.
Qed.

Lemma transfer_inventory_conserves_witness :
  exists p',
    products shop !! "P1" = Some p'
    /\ p_quantity p' = 20
    /\ p_warehouse_quantity p' = 20 - 5
    /\ p_store_quantity p' = 0 + 5
    /\ p_name p' = "Pen" /\ p_company p' = "Acme" /\ p_cost_price p' = 6%Q.
Proof.
  destruct (transfer_inventory_conserves shop0 "P1" "warehouse" "store" 5 shop
              (mk_product "Pen" "Acme" 6 20 20 0))
    as (p' & Hp' & Hq & Hdir & Hn & Hc & Hcost & _).
  - vm_compute. reflexivity.
  - vm_compute. reflexivity.
  - split; vm_compute; reflexivity.
  - exists p'. destruct Hdir as [(_ & _ & Hw & Hs)|(Hf & _)]; [|discriminate].
    repeat split; assumption.
Defined.

(** C9 as stated does not hold: [add_sale] accepts a wholesale sale without
    a customer name and persists it with a NULL [customer_name]. *)
Lemma wholesale_sale_without_customer_accepted :
  reachable (add_sale shop "wholesale" "P1" "Pen" 10 6 1 10 None).1
  /\ (add_sale shop "wholesale" "P1" "Pen" 10 6 1 10 None).2 = Ok tt
  /\ ~ wholesale_named (add_sale shop "wholesale" "P1" "Pen" 10 6 1 10 None).1.
Proof.
  split; [|split].
  - eapply reachable_call.
    + eapply reachable_call.
      * eapply reachable_call; [apply reachable_empty|].
        eapply call_product, call_add_product.
        apply (surjective_pairing
                 (add_product empty_db "P1" "Pen" "Acme" 6 20 None None)).
      * eapply call_product, call_transfer_inventory.
        apply (surjective_pairing
                 (transfer_inventory shop0 "P1" "warehouse" "store" 5)).
    + eapply call_product, call_add_sale. apply surjective_pairing.
  - vm_compute. reflexivity.
  - intros H. apply Forall_inv in H. apply H; reflexivity.
Qed.

(** C9, amended.  [add_sale] stores the customer name it is called with and
    does not examine it: a call persists at most one row, which carries the
    [sale_type] and the [customer_name] of the call; so as long as callers
    pass a customer name with every wholesale sale, every wholesale sale on
    record has one. *)
Theorem add_sale_stores_given_customer st sale_type product_id product_name
    selling_price cost_price quantity paid_amount customer_name st' r :
  add_sale st sale_type product_id product_name selling_price cost_price
    quantity paid_amount customer_name = (st', r) ->
  (sales st' = sales st
   \/ exists row, sales st' = sales st ++ [row]
        /\ s_sale_type row = sale_type
        /\ s_customer_name row = customer_name)
  /\ ((sale_type = "wholesale" -> customer_name <> None) ->
      wholesale_named st -> wholesale_named st').
Proof.
  intros H. apply add_sale_cases in H.
  assert (Hrows : sales st' = sales st
    \/ sales st' = sales st ++ [sale_row sale_type customer_name product_id
         product_name selling_price cost_price quantity paid_amount]).
  { destruct H as [(_ & -> & _)|[(_ & -> & _)|[(_ & _ & -> & _)|H]]];
      [now left | now left | now right |].
    destruct H as (_ & _ & _ & prod & _ & _ & _ & ->). now right. }
  split.
  - destruct Hrows as [E|E]; [now left|right]. eexists. split; [exact E|].
    split; reflexivity.
  - intros Hcaller Hst. unfold wholesale_named in *.
    destruct Hrows as [E|E]; rewrite E; [assumption|].
    apply Forall_app. split; [assumption|].
    constructor; [|constructor]. exact Hcaller.
Qed.

Lemma add_sale_stores_given_customer_witness :
  wholesale_named (add_sale shop "wholesale" "P1" "Pen" 10 6 1 4 (Some "Ali")).1.
Proof.
  destruct (add_sale_stores_given_customer shop "wholesale" "P1" "Pen" 10 6 1 4
              (Some "Ali")
              (add_sale shop "wholesale" "P1" "Pen" 10 6 1 4 (Some "Ali")).1
              (add_sale shop "wholesale" "P1" "Pen" 10 6 1 4 (Some "Ali")).2)
    as [_ H].
  - apply surjective_pairing.
  - apply H.
    + intros _. discriminate.
    + vm_compute. constructor.
Defined.

(** C10 as stated does not hold for every product and every call: on the
    product row that the first run of [init_database] leaves in a file from
    before the warehouse/store split (warehouse 0, store 0, quantity 5) a
    sale of quantity 0 with nothing paid raises in [update_product], after
    its sale row is committed; and on a well-formed row it raises when the
    sale type is not one of the schema or a price is negative. *)
Lemma add_sale_zero_quantity_can_raise :
  products (file_rows (init_database legacy_file)) !! "P1"
  = Some (mk_product "Pen" "Acme" 6 5 0 0)
  /\ add_sale (file_rows (init_database legacy_file))
       "retail" "P1" "Pen" 10 6 0 0 None
     = (set_sales (file_rows (init_database legacy_file))
          [sale_row "retail" None "P1" "Pen" 10 6 0 0],
        Raise (ValueError SplitMismatch))
  /\ add_sale shop "bogus" "P1" "Pen" 10 6 0 0 None
     = (shop, Raise (IntegrityError "CHECK sales"))
  /\ add_sale shop "retail" "P1" "Pen" (-1) 6 0 0 None
     = (shop, Raise (IntegrityError "CHECK sales")).
Proof. repeat split; vm_compute; reflexivity. Qed.

(** C10, amended.  [add_sale] does not ask for a positive quantity.  For a
    product row as the ledger stores it, a call with [quantity = 0] and
    [paid_amount = 0], a sale type of the schema and prices that are not
    negative succeeds: it persists a sale row whose [total], [profit] and
    [due_amount] are 0 and leaves the products table as it was.
    [transfer_inventory] raises for every quantity that is not positive. *)
Theorem add_sale_zero_quantity st sale_type product_id product_name
    selling_price cost_price customer_name p :
  products st !! product_id = Some p ->
  wf_product p ->
  sale_type = "retail" \/ sale_type = "wholesale" ->
  (0 <= selling_price)%Q ->
  (0 <= cost_price)%Q ->
  (exists row,
     add_sale st sale_type product_id product_name selling_price cost_price
       0 0 customer_name
     = (set_sales st (sales st ++ [row]), Ok tt)
     /\ s_quantity row = 0
     /\ (s_total row == 0)%Q /\ (s_profit row == 0)%Q /\ (s_due_amount row == 0)%Q)
  /\ (forall from_location to_location quantity,
        quantity <= 0 ->
        transfer_inventory st product_id from_location to_location quantity
        = (st, Raise (ValueError TransferNotPositive))).
Proof.
  intros Hp ([Hn Hn'] & [Hc Hc'] & Hcost & Hsum & Hq & Hw & Hs) Htype Hsell Hcostp.
  split.
  - exists (sale_row sale_type customer_name product_id product_name
              selling_price cost_price 0 0).
    split; [|repeat split; simpl; unfold inject_Z; ring].
    rewrite add_sale_unfold. cbv zeta.
    set (row := sale_row _ _ _ _ _ _ _ _).
    assert (Hd : Qltb (s_due_amount row) 0 = false).
    { apply Qltb_ge. unfold row; simpl. unfold inject_Z. ring_simplify. lra. }
    assert (Hchk : sales_checks row = true).
    { unfold sales_checks, row; simpl.
      apply Qle_bool_iff in Hsell, Hcostp.
      rewrite Hsell, Hcostp.
      destruct Htype as [-> | ->]; reflexivity. }
    rewrite Hd, Hchk, Hp. simpl negb. cbv iota.
    assert (Hlt : (p_store_quantity p <? 0) = false) by (apply Z.ltb_ge; lia).
    rewrite Hlt.
    unfold update_product, get_product_by_id. simpl.
    apply Qltb_ge in Hcost. rewrite Hcost.
    assert (Hb : blank (p_name p) = false) by (apply blank_false; congruence).
    assert (Hb' : blank (p_company p) = false) by (apply blank_false; congruence).
    rewrite Hb, Hb', Hp. simpl.
    rewrite !Z.sub_0_r.
    assert (Hq' : (p_quantity p <? 0) = false) by (apply Z.ltb_ge; lia).
    assert (Hw' : (p_warehouse_quantity p <? 0) = false) by (apply Z.ltb_ge; lia).
    assert (Hsum' : (p_warehouse_quantity p + p_store_quantity p =? p_quantity p) = true)
      by (apply Z.eqb_eq; lia).
    rewrite Hq', Hw', Hlt, Hsum'. simpl.
    rewrite Hn, Hc. unfold set_products, set_sales. simpl.
    rewrite insert_id; [reflexivity|]. rewrite Hp. now destruct p.
  - intros from_location to_location quantity Hle.
    unfold transfer_inventory.
    assert (Hq0 : (quantity <=? 0) = true) by (apply Z.leb_le; lia).
    now rewrite Hq0.
Qed.

Lemma add_sale_zero_quantity_witness :
  exists row,
    add_sale shop "retail" "P1" "Pen" 10 6 0 0 None
    = (set_sales shop (sales shop ++ [row]), Ok tt)
    /\ s_quantity row = 0
    /\ (s_total row == 0)%Q /\ (s_profit row == 0)%Q /\ (s_due_amount row == 0)%Q.
Proof.
  apply (add_sale_zero_quantity shop "retail" "P1" "Pen" 10 6 None
           (mk_product "Pen" "Acme" 6 20 15 5)).
  - vm_compute. reflexivity.
  - repeat split; vm_compute; congruence.
  - left. reflexivity.
  - vm_compute. discriminate.
  - vm_compute. discriminate.
Defined.

(** ** Product ledger *)

(** C8. [update_product] raises when no product has the given id; a
    successful call writes, for every quantity argument that was omitted,
    the value stored before the call; and the merged values are checked
    against the quantity invariant before the row is written: when they
    break it the call raises and the database is as it was. *)
Theorem update_product_merges_stored_values st product_id name company
    cost_price quantity warehouse_quantity store_quantity :
  (products st !! product_id = None ->
   exists e,
     update_product st product_id name company cost_price quantity
       warehouse_quantity store_quantity = (st, Raise e))
  /\ (forall st',
        update_product st product_id name company cost_price quantity
          warehouse_quantity store_quantity = (st', Ok tt) ->
        exists current p',
          products st !! product_id = Some current
          /\ products st' !! product_id = Some p'
          /\ p_quantity p' = default (p_quantity current) quantity
          /\ p_warehouse_quantity p' =
               default (p_warehouse_quantity current) warehouse_quantity
          /\ p_store_quantity p' =
               default (p_store_quantity current) store_quantity
          /\ qty_inv p')
  /\ (forall current,
        products st !! product_id = Some current ->
        ~ qty_inv (mk_product (strip name) (strip company) cost_price
                     (default (p_quantity current) quantity)
                     (default (p_warehouse_quantity current) warehouse_quantity)
                     (default (p_store_quantity current) store_quantity)) ->
        exists e,
          update_product st product_id name company cost_price quantity
            warehouse_quantity store_quantity = (st, Raise e)).
Proof.
  split; [|split].
  - intros Hnone. unfold update_product, get_product_by_id. rewrite Hnone.
    repeat case_match; eauto.
  - intros st' H. apply update_product_ok in H as (cur & Hcur & -> & Hinv & _).
    eexists cur, _. simpl. rewrite lookup_insert_eq.
    repeat split; try eassumption; apply Hinv.
  - intros current Hcur Hbad.
    destruct (update_product st product_id name company cost_price quantity
                warehouse_quantity store_quantity) as [st' [[]|e]] eqn:H.
    + apply update_product_ok in H as (cur & Hcur' & _ & Hinv & _).
      rewrite Hcur in Hcur'. simplify_eq. contradiction.
    + apply update_product_raise in H as ->. eauto.
Qed.

Lemma update_product_merges_stored_values_witness :
  (exists e, update_product shop "P9" "Ink" "Acme" 7 None None None = (shop, Raise e))
  /\ (exists p',
        products (update_product shop "P1" "Pen" "Acme" 7 None None None).1 !! "P1"
        = Some p'
        /\ p_quantity p' = 20 /\ p_warehouse_quantity p' = 15
        /\ p_store_quantity p' = 5)
  /\ (exists e, update_product shop "P1" "Pen" "Acme" 7 None None (Some 6)
                = (shop, Raise e)).
Proof.
  split; [|split].
  - apply (update_product_merges_stored_values shop "P9" "Ink" "Acme" 7 None None None).
    vm_compute. reflexivity.
  - destruct (update_product_merges_stored_values shop "P1" "Pen" "Acme" 7
                None None None) as (_ & H & _).
    destruct (H (update_product shop "P1" "Pen" "Acme" 7 None None None).1)
      as (cur & p' & Hcur & Hp' & Hq & Hw & Hs & _); [vm_compute; reflexivity|].
    assert (Hc : cur = mk_product "Pen" "Acme" 6 20 15 5)
      by (vm_compute in Hcur; congruence).
    subst cur. exists p'. repeat split; assumption.
  - destruct (update_product_merges_stored_values shop "P1" "Pen" "Acme" 7
                None None (Some 6)) as (_ & _ & H).
    apply (H (mk_product "Pen" "Acme" 6 20 15 5)); [vm_compute; reflexivity|].
    intros (Hsum & _). vm_compute in Hsum. discriminate.
Defined.





(** ** Customer dues *)

Lemma sum_Q_app l1 l2 : (sum_Q (l1 ++ l2) == sum_Q l1 + sum_Q l2)%Q.
Proof.
  induction l1 as [|a l1 IH]; simpl.
  - ring.
  - rewrite IH. ring.
Qed.

Lemma total_dues_spec st X : total_dues st X = spec_due_sum X (sales st).
Proof.
  unfold total_dues. induction (sales st) as [|r l IH]; [reflexivity|].
  simpl. unfold due_clause at 1.
  destruct (decide (s_sale_type r = "wholesale" /\ s_customer_name r = Some X))
    as [[Ht Hc]|Hn].
  - rewrite Ht, Hc. simpl. rewrite String.eqb_refl. simpl.
    destruct (Qlt_le_dec 0 (s_due_amount r)) as [Hlt|Hle].
    + apply Qltb_lt in Hlt. rewrite Hlt. simpl. now rewrite IH.
    + apply Qltb_ge in Hle. rewrite Hle. exact IH.
  - destruct (String.eqb (s_sale_type r) "wholesale") eqn:Ht; [|exact IH].
    destruct (s_customer_name r) as [n|] eqn:Hc; [|exact IH].
    destruct (String.eqb n X) eqn:Hx; [|exact IH].
    tests. subst. exfalso. apply Hn. now split.
Qed.

Lemma total_received_spec st X :
  total_received st X = spec_received_sum X (dues_received st).
Proof.
  unfold total_received. induction (dues_received st) as [|r l IH]; [reflexivity|].
  simpl. unfold received_clause at 1.
  destruct (decide (d_customer_name r = X)) as [->|Hn].
  - rewrite String.eqb_refl. simpl. now rewrite IH.
  - apply String.eqb_neq in Hn. rewrite Hn. exact IH.
Qed.

Lemma max0_Qmax x : (max0 x == Qmax 0 x)%Q.
Proof.
  unfold max0. destruct (Qltb 0 x) eqn:E; tests.
  - symmetry. apply Q.max_r. lra.
  - symmetry. apply Q.max_l. exact E.
Qed.

Lemma max0_nonneg x : (0 <= max0 x)%Q.
Proof.
  unfold max0. destruct (Qltb 0 x) eqn:E; tests; lra.
Qed.

Lemma max0_mono x y : (x <= y)%Q -> (max0 x <= max0 y)%Q.
Proof.
  intros H. unfold max0.
  destruct (Qltb 0 x) eqn:Ex, (Qltb 0 y) eqn:Ey; tests; lra.
Qed.

(** A payment adds its amount to the received total of the name it is
    stored under, and to no other. *)
Lemma add_dues_payment_received st Y amount notes st' r X :
  add_dues_payment st Y amount notes = (st', r) ->
  sales st' = sales st
  /\ (total_received st X <= total_received st' X)%Q
  /\ (r = Ok tt -> (0 < amount)%Q
      /\ (total_received st' X ==
          total_received st X + (if String.eqb (strip Y) X then amount else 0))%Q).
Proof.
  unfold add_dues_payment. intros H.
  destruct (Qle_bool amount 0) eqn:Ha.
  { simplify_eq. split; [reflexivity|]. split; [lra|discriminate]. }
  destruct (blank Y) eqn:Hb.
  { simplify_eq. split; [reflexivity|]. split; [lra|discriminate]. }
  simplify_eq. tests. split; [reflexivity|].
  assert (E : (total_received
                 (set_dues_received st
                    (dues_received st ++ [mk_dues_row (strip Y) amount (strip notes)])) X
               == total_received st X
                  + (if String.eqb (strip Y) X then amount else 0))%Q).
  { unfold total_received. simpl.
    rewrite List.filter_app, map_app, sum_Q_app. simpl.
    unfold received_clause at 2. simpl.
    destruct (String.eqb (strip Y) X); simpl; ring. }
  split.
  - rewrite E. destruct (String.eqb (strip Y) X); lra.
  - intros _. split; [exact Ha|exact E].
Qed.

Lemma add_sale_retail_dues st product_id product_name selling_price cost_price
    quantity paid_amount customer_name st' r X :
  add_sale st "retail" product_id product_name selling_price cost_price
    quantity paid_amount customer_name = (st', r) ->
  total_dues st' X = total_dues st X /\ dues_received st' = dues_received st.
Proof.
  intros H. apply add_sale_cases in H.
  assert (Hrow : forall l,
    sum_Q (map s_due_amount (List.filter (due_clause X)
      (l ++ [sale_row "retail" customer_name product_id product_name
               selling_price cost_price quantity paid_amount])))
    = sum_Q (map s_due_amount (List.filter (due_clause X) l))).
  { intros l. rewrite List.filter_app. simpl.
    unfold due_clause at 2. simpl. now rewrite app_nil_r. }
  unfold total_dues.
  destruct H as [(_ & -> & _)|[(_ & -> & _)|[(_ & _ & -> & _)|H]]].
  - now split.
  - now split.
  - simpl. now rewrite Hrow.
  - destruct H as (_ & _ & _ & prod & _ & _ & _ & ->). simpl. now rewrite Hrow.
Qed.

(** C7. [get_customer_dues_by_name X] is the sum of [due_amount] over the
    wholesale sales to [X] with a positive due, minus the sum of
    [amount_received] over the payments recorded for [X], floored at 0.  It is
    never negative, a call of [add_dues_payment] never raises it, and a retail
    sale through [add_sale] leaves it as it was. *)
Theorem customer_dues_by_name st X :
  (get_customer_dues_by_name st X == spec_outstanding_due st X)%Q
  /\ (0 <= get_customer_dues_by_name st X)%Q
  /\ (forall Y amount notes st' r,
        add_dues_payment st Y amount notes = (st', r) ->
        (get_customer_dues_by_name st' X <= get_customer_dues_by_name st X)%Q)
  /\ (forall product_id product_name selling_price cost_price quantity
        paid_amount customer_name st' r,
        add_sale st "retail" product_id product_name selling_price cost_price
          quantity paid_amount customer_name = (st', r) ->
        get_customer_dues_by_name st' X = get_customer_dues_by_name st X).
Proof.
  split; [|split; [|split]].
  - unfold get_customer_dues_by_name, spec_outstanding_due.
    rewrite total_dues_spec, total_received_spec. apply max0_Qmax.
  - apply max0_nonneg.
  - intros Y amount notes st' r H.
    apply (add_dues_payment_received _ _ _ _ _ _ X) in H as (Hs & Hle & _).
    unfold get_customer_dues_by_name. apply max0_mono.
    unfold total_dues. rewrite Hs. fold (total_dues st X). lra.
  - intros product_id product_name selling_price cost_price quantity
      paid_amount customer_name st' r H.
    apply (add_sale_retail_dues _ _ _ _ _ _ _ _ _ _ X) in H as [Hd Hr].
    unfold get_customer_dues_by_name, total_received. now rewrite Hd, Hr.
Qed.

Lemma customer_dues_by_name_witness :
  (get_customer_dues_by_name (add_dues_payment shop_ali "Ali" 25 EmptyString).1 "Ali"
   <= get_customer_dues_by_name shop_ali "Ali")%Q
  /\ get_customer_dues_by_name
       (add_sale shop_ali "retail" "P1" "Pen" 10 6 1 4 (Some "Ali")).1 "Ali"
     = get_customer_dues_by_name shop_ali "Ali".
Proof.
  destruct (customer_dues_by_name shop_ali "Ali") as (_ & _ & Hpay & Hretail).
  split.
  - apply (Hpay "Ali" 25%Q EmptyString _ (add_dues_payment shop_ali "Ali" 25 EmptyString).2).
    apply surjective_pairing.
  - apply (Hretail "P1" "Pen" 10%Q 6%Q 1 4%Q (Some "Ali") _
             (add_sale shop_ali "retail" "P1" "Pen" 10 6 1 4 (Some "Ali")).2).
    apply surjective_pairing.
Defined.

(** The scenario of the specification: Ali owes 60, pays 60, owes 0; a first
    payment of 25 leaves 35. *)
Example ali_scenario :
  get_customer_dues_by_name shop_ali "Ali" = 60%Q
  /\ get_customer_dues_by_name (add_dues_payment shop_ali "Ali" 25 EmptyString).1 "Ali" = 35%Q
  /\ get_customer_dues_by_name (add_dues_payment shop_ali "Ali" 60 EmptyString).1 "Ali" = 0%Q
  /\ get_customer_dues_by_name (add_dues_payment shop_ali "Ali" 99 EmptyString).1 "Ali" = 0%Q.
Proof. repeat split; vm_compute; reflexivity. Qed.

(** ** Schema and migration manager *)

Lemma has_column_app name c1 c2 :
  has_column name (c1 ++ c2) = has_column name c1 || has_column name c2.
Proof. apply existsb_app. Qed.

Lemma count_unsplit_pos (m : gmap string product) :
  (0 <? count_unsplit m)%nat = true
  <-> exists k p, m !! k = Some p /\ unsplit p = true.
Proof.
  unfold count_unsplit. rewrite Nat.ltb_lt. split.
  - intros H.
    destruct (map_size_ne_0_lookup_1 (filter (fun kv => unsplit kv.2 = true) m))
      as [k [p Hp]]; [lia|].
    apply map_lookup_filter_Some in Hp as [Hp Hu]. eauto.
  - intros (k & p & Hp & Hu).
    assert (size (filter (fun kv : string * product => unsplit kv.2 = true) m) <> 0%nat);
      [|lia].
    apply (map_size_ne_0_lookup_2 _ k). exists p.
    apply map_lookup_filter_Some. now split.
Qed.

Lemma split_half_positive p :
  unsplit p = true ->
  p_warehouse_quantity (split_half p) + p_store_quantity (split_half p)
  = p_quantity p
  /\ 0 <= p_warehouse_quantity (split_half p)
  /\ 0 < p_store_quantity (split_half p).
Proof.
  intros Hu. unfold split_half. rewrite Hu. simpl.
  unfold unsplit in Hu. tests.
  rewrite Z.quot_div_nonneg, Z.rem_mod_nonneg by lia.
  pose proof (Z.div_mod (p_quantity p) 2 ltac:(lia)).
  pose proof (Z.mod_pos_bound (p_quantity p) 2 ltac:(lia)).
  assert (0 <= p_quantity p / 2) by (apply Z.div_pos; lia).
  repeat split; lia.
Qed.

Lemma unsplit_split_half p : unsplit (split_half p) = false.
Proof.
  destruct (unsplit p) eqn:Hu.
  - destruct (split_half_positive p Hu) as (_ & _ & Hs).
    unfold unsplit. apply andb_false_iff. left. apply andb_false_iff. right.
    apply Z.eqb_neq. lia.
  - unfold split_half. now rewrite Hu.
Qed.

Lemma count_unsplit_backfill m : (0 <? count_unsplit (backfill m))%nat = false.
Proof.
  apply not_true_is_false. intros H.
  apply count_unsplit_pos in H as (k & p & Hp & Hu).
  unfold backfill in Hp.
  destruct (0 <? count_unsplit m)%nat eqn:Hc.
  - rewrite lookup_fmap in Hp.
    destruct (m !! k) as [p0|]; simpl in Hp; [|discriminate].
    simplify_eq. rewrite unsplit_split_half in Hu. discriminate.
  - assert (Hc' : (0 <? count_unsplit m)%nat = true)
      by (apply count_unsplit_pos; eauto).
    congruence.
Qed.

Lemma backfill_idem m : backfill (backfill m) = backfill m.
Proof.
  unfold backfill at 1. now rewrite count_unsplit_backfill.
Qed.

(** On a migrated file [init_database] changes nothing but the rows the
    backfill selects. *)
Lemma init_database_migrated f :
  migrated f ->
  init_database f
  = set_rows f (set_products (file_rows f) (backfill (products (file_rows f)))).
Proof.
  destruct f as [[pc ct sc dt et ix] rows].
  intros ((c & Hpc & Hw & Hs) & Hct & (c' & Hsc & Hd) & Hdt & Het & Hix).
  simpl in *. subst.
  unfold init_database, _create_products_table, _create_customers_table,
    _create_sales_table, _create_dues_received_table, _create_expenses_table,
    _add_due_amount_to_sales_table. simpl. rewrite Hd. simpl.
  unfold _add_warehouse_store_columns. simpl. rewrite Hw, Hs. simpl.
  unfold _create_indexes, set_rows, backfill.
  assert (Hu : ix ∪ ledger_indexes = ix)
    by (rewrite (comm_L (∪)); now apply subseteq_union_1_L).
  destruct (0 <? count_unsplit (products rows))%nat; simpl; rewrite Hu.
  - reflexivity.
  - unfold set_products. now destruct rows.
Qed.


Ltac schema_fields :=
  unfold alter_products, set_rows, set_products_columns, set_sales_columns;
  cbn [file_schema products_columns customers_table sales_columns
       dues_received_table expenses_table indexes file_rows].

Lemma add_warehouse_store_columns_schema g :
  exists c,
    file_schema (_add_warehouse_store_columns g)
    = mk_schema (Some c) (customers_table (file_schema g))
        (sales_columns (file_schema g)) (dues_received_table (file_schema g))
        (expenses_table (file_schema g)) (indexes (file_schema g))
    /\ has_column "warehouse_quantity" c = true
    /\ has_column "store_quantity" c = true.
Proof.
  destruct g as [[pc ct sc dt et ix] rows].
  unfold _add_warehouse_store_columns.
  cbn [file_schema products_columns].
  destruct pc as [c|]; cbn [table_info default from_option id].
  - destruct (has_column "warehouse_quantity" c) eqn:Hw,
             (has_column "store_quantity" c) eqn:Hs;
      cbn [negb orb].
    all: repeat match goal with
           | |- context [(0 <? ?n)%nat] => destruct (0 <? n)%nat
           end.
    all: schema_fields; cbn [table_info default from_option id].
    all: eexists; split; [reflexivity|];
      rewrite ?has_column_app, ?Hw, ?Hs; split; reflexivity.
  - cbn [has_column existsb negb orb]. schema_fields.
    cbn [table_info default from_option id].
    eexists; split; [reflexivity|]. split; reflexivity.
Qed.

Lemma add_due_amount_schema g :
  exists c,
    file_schema (_add_due_amount_to_sales_table g)
    = mk_schema (products_columns (file_schema g))
        (customers_table (file_schema g)) (Some c)
        (dues_received_table (file_schema g))
        (expenses_table (file_schema g)) (indexes (file_schema g))
    /\ has_column "due_amount" c = true.
Proof.
  destruct g as [[pc ct sc dt et ix] rows].
  unfold _add_due_amount_to_sales_table.
  cbn [file_schema sales_columns].
  destruct (has_column "due_amount" (table_info sc)) eqn:Hd; cbn [negb].
  - destruct sc as [c|]; [|discriminate].
    exists c. split; [reflexivity|exact Hd].
  - schema_fields. eexists. split; [reflexivity|].
    rewrite has_column_app. apply orb_true_r.
Qed.

Lemma init_database_is_migrated f : migrated (init_database f).
Proof.
  unfold init_database, migrated.
  set (f1 := _create_expenses_table _).
  assert (H1 : customers_table (file_schema f1) = true
               /\ dues_received_table (file_schema f1) = true
               /\ expenses_table (file_schema f1) = true).
  { subst f1. unfold _create_expenses_table, _create_dues_received_table.
    cbn [file_schema customers_table dues_received_table expenses_table].
    repeat split.
    unfold _create_sales_table, _create_customers_table.
    destruct (sales_columns _); reflexivity. }
  destruct H1 as (Hc & Hd & He).
  destruct (add_due_amount_schema f1) as (cs & Es & Hdue).
  destruct (add_warehouse_store_columns_schema (_add_due_amount_to_sales_table f1))
    as (cp & Ep & Hw & Hs).
  unfold _create_indexes. cbn [file_schema].
  rewrite Ep, Es.
  cbn [products_columns customers_table sales_columns dues_received_table
       expenses_table indexes].
  repeat split; eauto.
  apply union_subseteq_r.
Qed.

(** The schema does not change any more after the first run. *)
Lemma init_database_schema_idempotent f :
  file_schema (init_database (init_database f)) = file_schema (init_database f).
Proof.
  now rewrite (init_database_migrated (init_database f))
    by apply init_database_is_migrated.
Qed.

(** From the second run on the file does not change any more. *)
Lemma init_database_third_run f :
  init_database (init_database (init_database f))
  = init_database (init_database f).
Proof.
  pose proof (init_database_is_migrated f) as Hm.
  rewrite (init_database_migrated (init_database f)) by exact Hm.
  rewrite init_database_migrated by exact Hm.
  unfold set_rows, set_products.
  cbn [file_schema file_rows products sales dues_received].
  now rewrite backfill_idem.
Qed.

Lemma backfill_fixed m :
  backfill m = m <-> (0 <? count_unsplit m)%nat = false.
Proof.
  split.
  - intros E. rewrite <- E. apply count_unsplit_backfill.
  - intros H. unfold backfill. now rewrite H.
Qed.

(** The second run is a no-op exactly when the first run has left no row
    for the backfill. *)
Lemma init_database_second_run f :
  init_database (init_database f) = init_database f
  <-> count_unsplit (products (file_rows (init_database f))) = 0%nat.
Proof.
  rewrite (init_database_migrated (init_database f))
    by apply init_database_is_migrated.
  destruct (init_database f) as [s [m sl dl]].
  unfold set_rows, set_products. cbn [file_schema file_rows products sales dues_received].
  split.
  - intros E. assert (Hb : backfill m = m) by congruence.
    apply backfill_fixed, Nat.ltb_ge in Hb. lia.
  - intros E. assert (Hb : backfill m = m).
    { apply backfill_fixed, Nat.ltb_ge. lia. }
    now rewrite Hb.
Qed.

Lemma products_create_tables f c :
  products_columns (file_schema f) = Some c ->
  let g := _add_due_amount_to_sales_table
             (_create_expenses_table
                (_create_dues_received_table
                   (_create_sales_table
                      (_create_customers_table
                         (_create_products_table f))))) in
  products_columns (file_schema g) = Some c
  /\ products (file_rows g) = products (file_rows f).
Proof.
  destruct f as [[pc ct sc dt et ix] [m sl dl]]. cbn [file_schema products_columns].
  intros ->.
  unfold _create_products_table, _create_customers_table.
  cbn [file_schema file_rows products_columns customers_table sales_columns
       dues_received_table expenses_table indexes].
  unfold _create_sales_table.
  cbn [file_schema file_rows products_columns customers_table sales_columns
       dues_received_table expenses_table indexes].
  destruct sc as [c'|];
    unfold _create_dues_received_table, _create_expenses_table,
      _add_due_amount_to_sales_table;
    schema_fields; destruct dt;
    cbn [file_schema file_rows products_columns customers_table sales_columns
         dues_received_table expenses_table indexes table_info default
         from_option id];
    try destruct (has_column "due_amount" c'); cbn [negb has_column existsb];
    schema_fields; split; reflexivity.
Qed.

Lemma add_warehouse_store_columns_backfills g c :
  products_columns (file_schema g) = Some c ->
  has_column "warehouse_quantity" c || has_column "store_quantity" c = true ->
  exists m, products (file_rows (_add_warehouse_store_columns g)) = backfill m.
Proof.
  intros Hc Hsplit. unfold _add_warehouse_store_columns. cbv zeta.
  rewrite Hc. cbn [table_info default from_option id].
  destruct (has_column "warehouse_quantity" c) eqn:Hw,
           (has_column "store_quantity" c) eqn:Hs;
    try discriminate; cbn [negb orb].
  all: match goal with
       | |- context [(0 <? count_unsplit ?m)%nat] =>
           exists m; unfold backfill; destruct (0 <? count_unsplit m)%nat
       end; reflexivity.
Qed.

(** When the products table already has one of the two location columns,
    the first run backfills, and the second run is a no-op. *)
Lemma init_database_idempotent_after_split f c :
  products_columns (file_schema f) = Some c ->
  has_column "warehouse_quantity" c || has_column "store_quantity" c = true ->
  init_database (init_database f) = init_database f.
Proof.
  intros Hc Hsplit. apply init_database_second_run.
  unfold init_database.
  destruct (products_create_tables f c Hc) as [Hc' _].
  set (g := _add_due_amount_to_sales_table _) in *.
  unfold _create_indexes. cbn [file_rows].
  destruct (add_warehouse_store_columns_backfills g c Hc' Hsplit) as [m ->].
  pose proof (count_unsplit_backfill m) as Hb.
  apply Nat.ltb_ge in Hb. lia.
Qed.

(** C4, at the failing input.  [legacy_file] has a products table without
    the two location columns and one product with 5 units.  The first run of
    [init_database] adds the columns and leaves the row at warehouse 0 and
    store 0; the second run gives the same schema but rewrites the row to
    warehouse 2 and store 3, so it is not a no-op on the data. *)
Theorem init_database_second_run_backfills :
  products (file_rows (init_database legacy_file)) !! "P1"
  = Some (mk_product "Pen" "Acme" 6 5 0 0)
  /\ products (file_rows (init_database (init_database legacy_file))) !! "P1"
     = Some (mk_product "Pen" "Acme" 6 5 2 3)
  /\ file_schema (init_database (init_database legacy_file))
     = file_schema (init_database legacy_file)
  /\ init_database (init_database legacy_file) <> init_database legacy_file.
Proof.
  assert (H1 : products (file_rows (init_database legacy_file)) !! "P1"
               = Some (mk_product "Pen" "Acme" 6 5 0 0))
    by (vm_compute; reflexivity).
  assert (H2 : products (file_rows (init_database (init_database legacy_file))) !! "P1"
               = Some (mk_product "Pen" "Acme" 6 5 2 3))
    by (vm_compute; reflexivity).
  split; [exact H1|]. split; [exact H2|]. split.
  - apply init_database_schema_idempotent.
  - intros E. rewrite E in H2. rewrite H1 in H2. discriminate.
Qed.

(** ** The rows the ledger stores *)

Lemma wf_db_insert st id p :
  wf_db st -> wf_product p ->
  wf_db (set_products st (<[id := p]> (products st))).
Proof.
  intros Hst Hp. unfold wf_db. simpl. now apply map_Forall_insert_2.
Qed.

Lemma update_product_wf st product_id name company cost_price q w s st' r :
  update_product st product_id name company cost_price q w s = (st', r) ->
  wf_db st -> wf_db st'.
Proof.
  intros H Hst. destruct r as [[]|e].
  - apply update_product_ok in H as (cur & _ & -> & Hinv & Hcost & Hn & Hc).
    apply wf_db_insert; [exact Hst|].
    repeat split; try apply Hinv; simpl;
      try apply strip_idem; try (now apply blank_false); exact Hcost.
  - now apply update_product_raise in H as ->.
Qed.

(** Every call of the ledger keeps the product rows as the ledger stores
    them: names stripped and not empty, a cost price that is not negative,
    and the quantity invariant. *)
Lemma ledger_call_wf st st' : ledger_call st st' -> wf_db st -> wf_db st'.
Proof.
  intros [r Hc|product_id r Hd|customer_name amount notes r Hp] Hst.
  - inversion Hc as [? ? ? ? ? ? ? ? ? H1|? ? ? ? ? ? ? ? ? H1|? ? ? ? ? ? H1
                    |? ? ? ? ? ? ? ? ? ? H1]; subst.
    + destruct r as [[]|e].
      * apply add_product_ok in H1 as (_ & -> & Hinv & Hcost & Hn & Hco).
        apply wf_db_insert; [exact Hst|].
        repeat split; try apply Hinv; simpl;
          try apply strip_idem; try (now apply blank_false); exact Hcost.
      * now apply add_product_raise in H1 as ->.
    + eapply update_product_wf; eassumption.
    + destruct r as [[]|e].
      * apply transfer_inventory_ok in H1 as (prod & w' & s' & _ & _ & _ & H1).
        eapply update_product_wf; eassumption.
      * now apply transfer_inventory_raise in H1 as ->.
    + rewrite add_sale_unfold in H1. cbv zeta in H1.
      repeat case_match; simplify_eq; try exact Hst.
      eapply update_product_wf; [eassumption|exact Hst].
  - unfold delete_product in Hd. case_match; simplify_eq; [|exact Hst].
    unfold wf_db. simpl. now apply map_Forall_delete.
  - unfold add_dues_payment in Hp. repeat case_match; simplify_eq; exact Hst.
Qed.

Lemma reachable_wf st : reachable st -> wf_db st.
Proof.
  induction 1 as [|st st' _ IH Hcall].
  - apply map_Forall_empty.
  - eapply ledger_call_wf; eassumption.
Qed.

(** In a database the ledger produced, the hypotheses that C5 and C10 make
    on the product row hold for every product. *)
Lemma reachable_product st product_id p :
  reachable st -> products st !! product_id = Some p ->
  wf_product p /\ names_stripped p.
Proof.
  intros Hr Hp. apply reachable_wf in Hr.
  pose proof (Hr product_id p Hp) as Hwf. split; [exact Hwf|].
  destruct Hwf as ([Hn _] & [Hc _] & _). now split.
Qed.

(** * Further properties of the ledger *)

(** ** Products: adding, deleting, moving *)

Lemma set_products_id st : set_products st (products st) = st.
Proof. now destruct st. Qed.

(** X1. A successful [add_product] stores the row under the stripped id:
    looking that id up returns the stripped name and company, the given
    cost price and quantity, and, for omitted location quantities, the whole
    quantity in the warehouse and none in the store.  The id was free before,
    and no other row, sale or payment is touched. *)
Theorem add_product_then_get st product_id name company cost_price quantity
    w s st' :
  add_product st product_id name company cost_price quantity w s = (st', Ok tt) ->
  get_product_by_id st (strip product_id) = None
  /\ get_product_by_id st' (strip product_id)
     = Some (mk_product (strip name) (strip company) cost_price quantity
               (default quantity w) (default 0 s))
  /\ (forall other, other <> strip product_id ->
        get_product_by_id st' other = get_product_by_id st other)
  /\ sales st' = sales st
  /\ dues_received st' = dues_received st.
Proof.
  intros H. apply add_product_ok in H as (Hfree & -> & _).
  unfold get_product_by_id. simpl. rewrite lookup_insert_eq.
  repeat split; try assumption.
  intros other Hne. now rewrite lookup_insert_ne.
Qed.

Lemma add_product_then_get_witness :
  get_product_by_id (add_product empty_db " P7 " " Ink " "Acme " 3 12 None None).1 "P7"
  = Some (mk_product "Ink" "Acme" 3 12 12 0)
  /\ get_product_by_id (add_product empty_db " P7 " " Ink " "Acme " 3 12 None None).1 " P7 "
     = None.
Proof.
  destruct (add_product_then_get empty_db " P7 " " Ink " "Acme " 3 12 None None
              (add_product empty_db " P7 " " Ink " "Acme " 3 12 None None).1)
    as (_ & Hget & Hother & _); [vm_compute; reflexivity|].
  split.
  - exact Hget.
  - rewrite Hother; [reflexivity|]. vm_compute. discriminate.
Defined.

(** X2. [add_product] never overwrites: when a product is stored under the
    stripped id, the call raises and the database is as it was. *)
Theorem add_product_never_overwrites st product_id name company cost_price
    quantity w s p :
  products st !! strip product_id = Some p ->
  exists e,
    add_product st product_id name company cost_price quantity w s = (st, Raise e).
Proof.
  intros Hp. unfold add_product. rewrite Hp. repeat case_match; eauto.
Qed.

Lemma add_product_never_overwrites_witness :
  exists e, add_product shop " P1" "Pencil" "Other" 1 1 None None = (shop, Raise e).
Proof.
  apply (add_product_never_overwrites shop " P1" "Pencil" "Other" 1 1 None None
           (mk_product "Pen" "Acme" 6 20 15 5)).
  vm_compute. reflexivity.
Defined.



(** X4. For a product row as the ledger stores it, [transfer_inventory]
    succeeds exactly when the quantity is positive, the locations are
    warehouse and store in one order or the other, and the source location
    holds at least the quantity.  In every other case it raises and the
    database is as it was. *)
Theorem transfer_inventory_succeeds_iff st product_id from_location to_location
    quantity p :
  products st !! product_id = Some p ->
  wf_product p ->
  ((exists st',
      transfer_inventory st product_id from_location to_location quantity
      = (st', Ok tt))
   <-> 0 < quantity
       /\ (from_location = "warehouse" /\ to_location = "store"
           /\ quantity <= p_warehouse_quantity p
           \/ from_location = "store" /\ to_location = "warehouse"
           /\ quantity <= p_store_quantity p))
  /\ (forall st' e,
        transfer_inventory st product_id from_location to_location quantity
        = (st', Raise e) -> st' = st).
Proof.
  intros Hp (Hn & Hc & Hcost & Hsum & Hq & Hw & Hs).
  split; [|intros st' e; apply transfer_inventory_raise].
  split.
  - intros [st' H].
    apply transfer_inventory_ok in H as (prod & w' & s' & Hp' & Hpos & Hdir & H).
    rewrite Hp in Hp'. simplify_eq.
    apply update_product_ok in H as (cur & _ & _ & Hinv & _).
    destruct Hinv as (_ & _ & Hw' & Hs'). simpl in Hw', Hs'.
    split; [exact Hpos|].
    destruct Hdir as [(-> & -> & -> & ->)|(-> & -> & -> & ->)];
      [left | right]; repeat split; lia.
  - intros [Hpos Hdir].
    assert (Hupd : forall w' s', w' + s' = p_quantity p -> 0 <= w' -> 0 <= s' ->
              exists st',
                update_product st product_id (p_name p) (p_company p)
                  (p_cost_price p) (Some (p_quantity p)) (Some w') (Some s')
                = (st', Ok tt)).
    { intros w' s' Hsum' Hw' Hs'. unfold update_product, get_product_by_id.
      apply Qltb_ge in Hcost. rewrite Hcost.
      rewrite (stored_text_not_blank _ Hn), (stored_text_not_blank _ Hc), Hp.
      simpl.
      assert (E1 : (p_quantity p <? 0) = false) by (apply Z.ltb_ge; lia).
      assert (E2 : (w' <? 0) = false) by (apply Z.ltb_ge; lia).
      assert (E3 : (s' <? 0) = false) by (apply Z.ltb_ge; lia).
      assert (E4 : (w' + s' =? p_quantity p) = true) by (apply Z.eqb_eq; lia).
      rewrite E1, E2, E3, E4. simpl. eauto. }
    unfold transfer_inventory, get_product_by_id.
    assert (E0 : (quantity <=? 0) = false) by (apply Z.leb_gt; lia).
    rewrite E0, Hp.
    destruct Hdir as [(-> & -> & Hle)|(-> & -> & Hle)]; simpl.
    + assert (E : (p_warehouse_quantity p <? quantity) = false)
        by (apply Z.ltb_ge; lia).
      rewrite E. apply Hupd; lia.
    + assert (E : (p_store_quantity p <? quantity) = false)
        by (apply Z.ltb_ge; lia).
      rewrite E. apply Hupd; lia.
Qed.

Lemma transfer_inventory_succeeds_iff_witness :
  (exists st', transfer_inventory shop "P1" "store" "warehouse" 5 = (st', Ok tt))
  /\ ~ (exists st', transfer_inventory shop "P1" "store" "warehouse" 6 = (st', Ok tt)).
Proof.
  destruct (transfer_inventory_succeeds_iff shop "P1" "store" "warehouse" 5
              (mk_product "Pen" "Acme" 6 20 15 5)) as [H5 _].
  { vm_compute. reflexivity. }
  { repeat split; vm_compute; congruence. }
  destruct (transfer_inventory_succeeds_iff shop "P1" "store" "warehouse" 6
              (mk_product "Pen" "Acme" 6 20 15 5)) as [H6 _].
  { vm_compute. reflexivity. }
  { repeat split; vm_compute; congruence. }
  split.
  - apply H5. split; [lia|]. right. repeat split. simpl. lia.
  - intros H. apply H6 in H as [_ [(Hf & _)|(_ & _ & Hle)]].
    + discriminate.
    + simpl in Hle. lia.
Defined.

(** [update_product] with all three quantities given, on values that pass
    its checks. *)
Lemma update_product_value st product_id name company cost_price q w s cur :
  products st !! product_id = Some cur ->
  (0 <= cost_price)%Q ->
  blank name = false -> blank company = false ->
  w + s = q -> 0 <= w -> 0 <= s ->
  update_product st product_id name company cost_price (Some q) (Some w) (Some s)
  = (set_products st
       (<[product_id := mk_product (strip name) (strip company) cost_price q w s]>
          (products st)),
     Ok tt).
Proof.
  intros Hp Hcost Hn Hc Hsum Hw Hs.
  unfold update_product, get_product_by_id.
  apply Qltb_ge in Hcost. rewrite Hcost, Hn, Hc, Hp. simpl.
  assert (E1 : (q <? 0) = false) by (apply Z.ltb_ge; lia).
  assert (E2 : (w <? 0) = false) by (apply Z.ltb_ge; lia).
  assert (E3 : (s <? 0) = false) by (apply Z.ltb_ge; lia).
  assert (E4 : (w + s =? q) = true) by (apply Z.eqb_eq; lia).
  now rewrite E1, E2, E3, E4.
Qed.

(** The row after moving [quantity] units out of [from_location]. *)
Lemma transfer_inventory_value st product_id from_location to_location quantity p :
  products st !! product_id = Some p ->
  wf_product p ->
  0 < quantity ->
  (from_location = "warehouse" /\ to_location = "store"
   /\ quantity <= p_warehouse_quantity p
   \/ from_location = "store" /\ to_location = "warehouse"
   /\ quantity <= p_store_quantity p) ->
  transfer_inventory st product_id from_location to_location quantity
  = (set_products st
       (<[product_id :=
            mk_product (p_name p) (p_company p) (p_cost_price p) (p_quantity p)
              (if String.eqb from_location "warehouse"
               then p_warehouse_quantity p - quantity
               else p_warehouse_quantity p + quantity)
              (if String.eqb from_location "warehouse"
               then p_store_quantity p + quantity
               else p_store_quantity p - quantity)]> (products st)),
     Ok tt).
Proof.
  intros Hp ([Hn Hn'] & [Hc Hc'] & Hcost & Hsum & Hq & Hw & Hs) Hpos Hdir.
  assert (Hb : blank (p_name p) = false) by (apply blank_false; congruence).
  assert (Hb' : blank (p_company p) = false) by (apply blank_false; congruence).
  unfold transfer_inventory, get_product_by_id.
  assert (E0 : (quantity <=? 0) = false) by (apply Z.leb_gt; lia).
  rewrite E0, Hp.
  destruct Hdir as [(-> & -> & Hle)|(-> & -> & Hle)]; simpl.
  - assert (E : (p_warehouse_quantity p <? quantity) = false)
      by (apply Z.ltb_ge; lia).
    rewrite E, (update_product_value _ _ _ _ _ _ _ _ p) by (assumption || lia).
    now rewrite Hn, Hc.
  - assert (E : (p_store_quantity p <? quantity) = false)
      by (apply Z.ltb_ge; lia).
    rewrite E, (update_product_value _ _ _ _ _ _ _ _ p) by (assumption || lia).
    now rewrite Hn, Hc.
Qed.

Lemma transfer_inventory_ok_stock st product_id from_location to_location
    quantity st' p :
  products st !! product_id = Some p ->
  transfer_inventory st product_id from_location to_location quantity = (st', Ok tt) ->
  0 < quantity
  /\ (from_location = "warehouse" /\ to_location = "store"
      /\ quantity <= p_warehouse_quantity p
      \/ from_location = "store" /\ to_location = "warehouse"
      /\ quantity <= p_store_quantity p).
Proof.
  intros Hp H.
  apply transfer_inventory_ok in H as (prod & w' & s' & Hp' & Hpos & Hdir & H).
  rewrite Hp in Hp'. simplify_eq.
  apply update_product_ok in H as (cur & _ & _ & Hinv & _).
  destruct Hinv as (_ & _ & Hw' & Hs'). simpl in Hw', Hs'.
  split; [exact Hpos|].
  destruct Hdir as [(-> & -> & -> & ->)|(-> & -> & -> & ->)];
    [left | right]; repeat split; lia.
Qed.

(** X5. Moving a quantity from one location to the other and then the same
    quantity back restores the database, for a product row as the ledger
    stores it. *)
Theorem transfer_inventory_there_and_back st product_id from_location
    to_location quantity st' p :
  products st !! product_id = Some p ->
  wf_product p ->
  transfer_inventory st product_id from_location to_location quantity = (st', Ok tt) ->
  transfer_inventory st' product_id to_location from_location quantity = (st, Ok tt).
Proof.
  intros Hp Hwf H.
  destruct (transfer_inventory_ok_stock _ _ _ _ _ _ _ Hp H) as [Hpos Hdir].
  rewrite (transfer_inventory_value _ _ _ _ _ p) in H by assumption.
  simplify_eq.
  pose proof Hwf as (Hn & Hc & Hcost & Hsum & Hq & Hw & Hs).
  set (p1 := mk_product _ _ _ _ _ _).
  assert (Hp1 : products (set_products st (<[product_id := p1]> (products st)))
                !! product_id = Some p1) by (simpl; apply lookup_insert_eq).
  rewrite (transfer_inventory_value _ _ _ _ _ p1 Hp1).
  - unfold set_products. simpl. rewrite insert_insert_eq.
    assert (Hback : mk_product (p_name p) (p_company p) (p_cost_price p)
              (p_quantity p)
              (if String.eqb to_location "warehouse"
               then p_warehouse_quantity p1 - quantity
               else p_warehouse_quantity p1 + quantity)
              (if String.eqb to_location "warehouse"
               then p_store_quantity p1 + quantity
               else p_store_quantity p1 - quantity) = p).
    { destruct Hdir as [(-> & -> & _)|(-> & -> & _)]; subst p1; simpl;
        destruct p; simpl; f_equal; lia. }
    subst p1. simpl in *. rewrite Hback.
    rewrite insert_id by assumption. now destruct st.
  - subst p1. repeat split; simpl; try apply Hn; try apply Hc; try assumption;
      destruct Hdir as [(-> & -> & ?)|(-> & -> & ?)]; simpl; lia.
  - exact Hpos.
  - subst p1. destruct Hdir as [(-> & -> & ?)|(-> & -> & ?)]; simpl;
      [right | left]; repeat split; lia.
Qed.

Lemma transfer_inventory_there_and_back_witness :
  transfer_inventory shop "P1" "store" "warehouse" 5 = (shop0, Ok tt).
Proof.
  apply (transfer_inventory_there_and_back shop0 "P1" "warehouse" "store" 5 shop
           (mk_product "Pen" "Acme" 6 20 20 0)).
  - vm_compute. reflexivity.
  - repeat split; vm_compute; congruence.
  - vm_compute. reflexivity.
Defined.

(** ** Sales: when a sale goes through *)

Lemma sales_checks_true r :
  sales_checks r = true
  <-> (s_sale_type r = "retail" \/ s_sale_type r = "wholesale")
      /\ (0 <= s_selling_price r)%Q /\ (0 <= s_cost_price r)%Q
      /\ 0 <= s_quantity r /\ (0 <= s_paid_amount r)%Q.
Proof.
  unfold sales_checks.
  rewrite !andb_true_iff, orb_true_iff, !String.eqb_eq, !Qle_bool_iff, Z.leb_le.
  tauto.
Qed.

(** X6. For a product row as the ledger stores it, [add_sale] succeeds
    exactly when the payment does not exceed the total, the sale type is
    retail or wholesale, prices, quantity and payment are not negative, and
    the store holds at least the quantity.  Stock in the warehouse does not
    count. *)
Theorem add_sale_succeeds_iff st sale_type product_id product_name
    selling_price cost_price quantity paid_amount customer_name p :
  products st !! product_id = Some p ->
  wf_product p ->
  (exists st',
     add_sale st sale_type product_id product_name selling_price cost_price
       quantity paid_amount customer_name = (st', Ok tt))
  <-> (paid_amount <= selling_price * inject_Z quantity)%Q
      /\ (sale_type = "retail" \/ sale_type = "wholesale")
      /\ (0 <= selling_price)%Q /\ (0 <= cost_price)%Q
      /\ 0 <= quantity /\ (0 <= paid_amount)%Q
      /\ quantity <= p_store_quantity p.
Proof.
  intros Hp ([Hn Hn'] & [Hc Hc'] & Hcost & Hsum & Hq & Hw & Hs).
  split.
  - intros [st' H]. apply add_sale_cases in H.
    destruct H as [(_ & _ & ?)|[(_ & _ & ?)|[(_ & _ & _ & ? & ?)|H]]];
      try discriminate.
    destruct H as (Hdue & Hchk & _ & prod & Hp' & Hle & _).
    rewrite Hp in Hp'. simplify_eq.
    apply sales_checks_true in Hchk. simpl in Hchk, Hdue.
    destruct Hchk as (Ht & Hsp & Hcp & Hq0 & Hpaid).
    repeat split; try assumption. lra.
  - intros (Hpay & Ht & Hsp & Hcp & Hq0 & Hpaid & Hle).
    rewrite add_sale_unfold. cbv zeta.
    set (row := sale_row _ _ _ _ _ _ _ _).
    assert (Hd : Qltb (s_due_amount row) 0 = false).
    { apply Qltb_ge. unfold row; simpl. lra. }
    assert (Hchk : sales_checks row = true).
    { apply sales_checks_true. unfold row; simpl. tauto. }
    rewrite Hd, Hchk, Hp. simpl negb. cbv iota.
    assert (E : (p_store_quantity p <? quantity) = false) by (apply Z.ltb_ge; lia).
    rewrite E.
    rewrite (update_product_value _ _ _ _ _ _ _ _ p);
      try assumption; try lia; [eauto| |].
    + apply blank_false; congruence.
    + apply blank_false; congruence.
Qed.

Lemma add_sale_succeeds_iff_witness :
  (exists st', add_sale shop "retail" "P1" "Pen" 10 6 5 50 None = (st', Ok tt))
  /\ ~ (exists st', add_sale shop "retail" "P1" "Pen" 10 6 6 60 None = (st', Ok tt)).
Proof.
  split.
  - apply (add_sale_succeeds_iff shop "retail" "P1" "Pen" 10 6 5 50 None
             (mk_product "Pen" "Acme" 6 20 15 5)).
    + vm_compute. reflexivity.
    + repeat split; vm_compute; congruence.
    + repeat split; try (vm_compute; congruence). now left.
  - intros H.
    apply (add_sale_succeeds_iff shop "retail" "P1" "Pen" 10 6 6 60 None
             (mk_product "Pen" "Acme" 6 20 15 5)) in H.
    + destruct H as (_ & _ & _ & _ & _ & _ & Hle). simpl in Hle. lia.
    + vm_compute. reflexivity.
    + repeat split; vm_compute; congruence.
Defined.

(** X7. A sale whose row breaks a constraint of the [sales] table, that is a
    negative quantity, price or payment, or a sale type other than retail and
    wholesale, is rejected with the database as it was: unlike a sale that is
    short of stock, it leaves no row behind. *)
Theorem add_sale_constraint_violation st sale_type product_id product_name
    selling_price cost_price quantity paid_amount customer_name :
  quantity < 0 \/ (selling_price < 0)%Q \/ (cost_price < 0)%Q
  \/ (paid_amount < 0)%Q
  \/ (sale_type <> "retail" /\ sale_type <> "wholesale") ->
  exists e,
    add_sale st sale_type product_id product_name selling_price cost_price
      quantity paid_amount customer_name = (st, Raise e).
Proof.
  intros Hbad. rewrite add_sale_unfold. cbv zeta.
  set (row := sale_row _ _ _ _ _ _ _ _).
  destruct (Qltb (s_due_amount row) 0); [eauto|].
  assert (Hchk : sales_checks row = false).
  { apply not_true_is_false. intros Hchk. apply sales_checks_true in Hchk.
    unfold row in Hchk; simpl in Hchk.
    destruct Hchk as (Ht & Hsp & Hcp & Hq0 & Hpaid).
    destruct Hbad as [?|[?|[?|[?|[? ?]]]]]; try lia; try lra.
    destruct Ht; contradiction. }
  rewrite Hchk. simpl. eauto.
Qed.

Lemma add_sale_constraint_violation_witness :
  exists e, add_sale shop "retail" "P1" "Pen" 10 6 (-2) (-20) None = (shop, Raise e).
Proof.
  apply (add_sale_constraint_violation shop "retail" "P1" "Pen" 10 6 (-2) (-20) None).
  left. lia.
Defined.

(** ** What the ledger never does *)

(** X8. No call of the ledger changes or removes a sale or a payment on
    record: after any call the old [sales] and [dues_received] tables are
    prefixes of the new ones, and a call adds at most one row to each. *)
Theorem ledger_is_append_only st st' :
  ledger_call st st' ->
  (exists new, sales st' = sales st ++ new /\ (length new <= 1)%nat)
  /\ (exists new, dues_received st' = dues_received st ++ new
        /\ (length new <= 1)%nat).
Proof.
  assert (Hsame : forall s : db,
            (exists new, sales s = sales s ++ new /\ (length new <= 1)%nat)
            /\ (exists new, dues_received s = dues_received s ++ new
                  /\ (length new <= 1)%nat)).
  { intros s. split; exists []; rewrite app_nil_r; simpl; split; (reflexivity || lia). }
  assert (Hupd : forall s id n c cp q w x s' r,
            update_product s id n c cp q w x = (s', r) ->
            sales s' = sales s /\ dues_received s' = dues_received s).
  { intros s id n c cp q w x s' r H. destruct r as [[]|e].
    - apply update_product_ok in H as (cur & _ & -> & _). now split.
    - apply update_product_raise in H as ->. now split. }
  intros [r Hc|product_id r Hd|customer_name amount notes r Hp].
  - inversion Hc as [? ? ? ? ? ? ? ? ? H1|? ? ? ? ? ? ? ? ? H1|? ? ? ? ? ? H1
                    |? ? ? ? ? ? ? ? ? ? H1]; subst.
    + destruct r as [[]|e].
      * apply add_product_ok in H1 as (_ & -> & _). (simpl; apply Hsame).
      * apply add_product_raise in H1 as ->. apply Hsame.
    + apply Hupd in H1 as [-> ->]. apply Hsame.
    + destruct r as [[]|e].
      * apply transfer_inventory_ok in H1 as (prod & w' & s' & _ & _ & _ & H1).
        apply Hupd in H1 as [-> ->]. apply Hsame.
      * apply transfer_inventory_raise in H1 as ->. apply Hsame.
    + apply add_sale_cases in H1.
      destruct H1 as [(_ & -> & _)|[(_ & -> & _)|[(_ & _ & -> & _)|H1]]];
        try apply Hsame.
      * split; [|(simpl; apply Hsame)]. eexists. split; [reflexivity|simpl; lia].
      * destruct H1 as (_ & _ & _ & prod & _ & _ & _ & ->).
        split; [|(simpl; apply Hsame)]. eexists. split; [reflexivity|simpl; lia].
  - unfold delete_product in Hd. case_match; simplify_eq; (simpl; apply Hsame).
  - unfold add_dues_payment in Hp. repeat case_match; simplify_eq;
      try apply Hsame.
    split; [(simpl; apply Hsame)|]. eexists. split; [reflexivity|simpl; lia].
Qed.

Lemma ledger_is_append_only_witness :
  exists new,
    sales (add_sale shop_ali "retail" "P1" "Pen" 10 6 1 10 None).1
    = sales shop_ali ++ new /\ (length new <= 1)%nat.
Proof.
  apply (ledger_is_append_only shop_ali
           (add_sale shop_ali "retail" "P1" "Pen" 10 6 1 10 None).1).
  eapply call_product, call_add_sale. apply surjective_pairing.
Defined.

(** X9. In every database that calls of the ledger produce from an empty
    one, every product row has a stripped, non-empty name and company, a
    cost price that is not negative, and quantities that are not negative
    with [warehouse_quantity + store_quantity = quantity]. *)
Theorem reachable_products_well_formed st product_id p :
  reachable st ->
  products st !! product_id = Some p ->
  stored_text (p_name p) /\ stored_text (p_company p)
  /\ (0 <= p_cost_price p)%Q
  /\ p_warehouse_quantity p + p_store_quantity p = p_quantity p
  /\ 0 <= p_quantity p /\ 0 <= p_warehouse_quantity p /\ 0 <= p_store_quantity p.
Proof.
  intros Hr Hp. apply reachable_wf in Hr. exact (Hr product_id p Hp).
Qed.

Lemma reachable_products_well_formed_witness :
  p_warehouse_quantity (mk_product "Pen" "Acme" 6 20 20 0)
  + p_store_quantity (mk_product "Pen" "Acme" 6 20 20 0)
  = p_quantity (mk_product "Pen" "Acme" 6 20 20 0).
Proof.
  apply (reachable_products_well_formed shop0 "P1" (mk_product "Pen" "Acme" 6 20 20 0)).
  - eapply reachable_call; [apply reachable_empty|].
    eapply call_product, call_add_product.
    apply (surjective_pairing (add_product empty_db "P1" "Pen" "Acme" 6 20 None None)).
  - vm_compute. reflexivity.
Defined.

(** X10. A product row that breaks
    [warehouse_quantity + store_quantity = quantity] is stuck: no transfer
    and no sale on it succeeds, and a sale that passes the constraints of
    the [sales] table still leaves its row in the sales table. *)
Theorem broken_row_blocks_stock_movements st product_id p :
  products st !! product_id = Some p ->
  p_warehouse_quantity p + p_store_quantity p <> p_quantity p ->
  (forall from_location to_location quantity st' r,
     transfer_inventory st product_id from_location to_location quantity = (st', r) ->
     st' = st /\ r <> Ok tt)
  /\ (forall sale_type product_name selling_price cost_price quantity
        paid_amount customer_name st' r,
        add_sale st sale_type product_id product_name selling_price cost_price
          quantity paid_amount customer_name = (st', r) ->
        r <> Ok tt /\ products st' = products st
        /\ ((0 <= selling_price * inject_Z quantity - paid_amount)%Q ->
            sales_checks (sale_row sale_type customer_name product_id
                            product_name selling_price cost_price quantity
                            paid_amount) = true ->
            sales st' = sales st ++
              [sale_row sale_type customer_name product_id product_name
                 selling_price cost_price quantity paid_amount])).
Proof.
  intros Hp Hbad. split.
  - intros from_location to_location quantity st' r H.
    destruct r as [[]|e].
    + exfalso.
      apply transfer_inventory_ok in H as (prod & w' & s' & Hp' & _ & Hdir & H).
      rewrite Hp in Hp'. simplify_eq.
      apply update_product_ok in H as (cur & _ & _ & (Hsum & _) & _).
      simpl in Hsum.
      destruct Hdir as [(_ & _ & -> & ->)|(_ & _ & -> & ->)]; lia.
    + apply transfer_inventory_raise in H as ->. split; [reflexivity|discriminate].
  - intros sale_type product_name selling_price cost_price quantity
      paid_amount customer_name st' r H.
    apply add_sale_cases in H.
    destruct H as [(Hlt & -> & ->)|[(Hchk & -> & ->)|[(_ & _ & -> & why & ->)|H]]].
    + split; [discriminate|]. split; [reflexivity|]. simpl in Hlt. intros; lra.
    + split; [discriminate|]. split; [reflexivity|]. intros; congruence.
    + split; [discriminate|]. split; reflexivity.
    + exfalso. destruct H as (_ & _ & _ & prod & Hp' & _ & (Hsum & _) & _).
      rewrite Hp in Hp'. simplify_eq. simpl in Hsum. lia.
Qed.

Lemma broken_row_blocks_stock_movements_witness :
  (transfer_inventory (file_rows (init_database legacy_file)) "P1"
     "warehouse" "store" 1).1 = file_rows (init_database legacy_file)
  /\ (transfer_inventory (file_rows (init_database legacy_file)) "P1"
        "warehouse" "store" 1).2 <> Ok tt.
Proof.
  destruct (broken_row_blocks_stock_movements
              (file_rows (init_database legacy_file))
              "P1" (mk_product "Pen" "Acme" 6 5 0 0)) as [H _].
  - vm_compute. reflexivity.
  - vm_compute. discriminate.
  - apply (H "warehouse" "store" 1). apply surjective_pairing.
Defined.

(** ** Dues and payments *)

Lemma max0_compat x y : (x == y)%Q -> (max0 x == max0 y)%Q.
Proof.
  intros E. apply Qle_antisym; apply max0_mono; rewrite E; apply Qle_refl.
Qed.

(** X11. A payment that [add_dues_payment] accepts is credited to the
    stripped customer name, by exactly its amount: the outstanding due of
    that name becomes the old sale dues minus the old payments minus the
    amount, floored at 0, and the outstanding due of every other name is as
    it was.  The payment is accepted exactly when the amount is positive and
    the name is not blank. *)
Theorem add_dues_payment_credits_stripped_name st customer_name amount notes :
  ((exists st', add_dues_payment st customer_name amount notes = (st', Ok tt))
   <-> (0 < amount)%Q /\ blank customer_name = false)
  /\ (forall st',
        add_dues_payment st customer_name amount notes = (st', Ok tt) ->
        (get_customer_dues_by_name st' (strip customer_name)
         == max0 (total_dues st (strip customer_name)
                  - total_received st (strip customer_name) - amount))%Q
        /\ forall X, X <> strip customer_name ->
             get_customer_dues_by_name st' X = get_customer_dues_by_name st X).
Proof.
  split.
  - unfold add_dues_payment. split.
    + intros [st' H]. repeat case_match; simplify_eq. tests. now split.
    + intros [Ha Hb]. apply Qle_bool_false in Ha. rewrite Ha, Hb. eauto.
  - intros st' H. unfold add_dues_payment in H.
    repeat case_match; simplify_eq. split.
    + unfold get_customer_dues_by_name. apply max0_compat.
      unfold total_dues, total_received. simpl.
      rewrite List.filter_app, map_app, sum_Q_app. simpl.
      unfold received_clause at 2. simpl. rewrite String.eqb_refl. simpl. ring.
    + intros X Hne. unfold get_customer_dues_by_name, total_dues, total_received.
      simpl. rewrite List.filter_app. simpl.
      unfold received_clause at 2. simpl.
      assert (E : String.eqb (strip customer_name) X = false)
        by (apply String.eqb_neq; congruence).
      rewrite E. now rewrite app_nil_r.
Qed.

Lemma add_dues_payment_credits_stripped_name_witness :
  (get_customer_dues_by_name (add_dues_payment shop_ali " Ali " 25 EmptyString).1 "Ali"
   == max0 (total_dues shop_ali "Ali" - total_received shop_ali "Ali" - 25))%Q
  /\ get_customer_dues_by_name (add_dues_payment shop_ali " Ali " 25 EmptyString).1 " Ali "
     = get_customer_dues_by_name shop_ali " Ali ".
Proof.
  destruct (add_dues_payment_credits_stripped_name shop_ali " Ali " 25 EmptyString)
    as [_ H].
  destruct (H (add_dues_payment shop_ali " Ali " 25 EmptyString).1) as [H1 H2];
    [vm_compute; reflexivity|].
  split.
  - exact H1.
  - apply H2. vm_compute. discriminate.
Defined.

(** X12. Payments beyond the dues on record are not lost: the outstanding
    due is computed from the two running totals, so a successful wholesale
    sale to a customer raises the outstanding due to the old sale dues minus
    the old payments plus the due of the new sale (counted when positive),
    floored at 0.  A customer who had overpaid by [c] owes only what the new
    due exceeds [c] by. *)
Theorem wholesale_sale_after_overpayment st product_id product_name
    selling_price cost_price quantity paid_amount X st' :
  add_sale st "wholesale" product_id product_name selling_price cost_price
    quantity paid_amount (Some X) = (st', Ok tt) ->
  (get_customer_dues_by_name st' X
   == max0 (total_dues st X - total_received st X
            + max0 (selling_price * inject_Z quantity - paid_amount)))%Q
  /\ (forall c, (0 <= c)%Q ->
        (total_received st X == total_dues st X + c)%Q ->
        (get_customer_dues_by_name st' X
         == max0 (selling_price * inject_Z quantity - paid_amount - c))%Q).
Proof.
  intros H. apply add_sale_cases in H.
  destruct H as [(_ & _ & ?)|[(_ & _ & ?)|[(_ & _ & _ & ? & ?)|H]]];
    try discriminate.
  destruct H as (Hdue & _ & _ & prod & _ & _ & _ & ->). simpl in Hdue.
  assert (E : (get_customer_dues_by_name
                 (set_products
                    (set_sales st
                       (sales st ++
                        [sale_row "wholesale" (Some X) product_id product_name
                           selling_price cost_price quantity paid_amount]))
                    (<[product_id:=sold quantity prod]> (products st))) X
               == max0 (total_dues st X - total_received st X
                        + max0 (selling_price * inject_Z quantity - paid_amount)))%Q).
  { unfold get_customer_dues_by_name. apply max0_compat.
    unfold total_dues, total_received. simpl.
    rewrite List.filter_app, map_app, sum_Q_app. simpl.
    unfold due_clause at 2. simpl. rewrite String.eqb_refl. simpl.
    unfold max0 at 1.
    destruct (Qltb 0 (selling_price * inject_Z quantity - paid_amount));
      simpl; ring. }
  split; [exact E|].
  intros c Hc Hover. rewrite E. apply max0_compat.
  unfold max0.
  destruct (Qltb 0 (selling_price * inject_Z quantity - paid_amount)) eqn:Hpos;
    tests; rewrite Hover.
  - ring.
  - assert (Hz : (selling_price * inject_Z quantity - paid_amount == 0)%Q)
      by (apply Qle_antisym; assumption).
    rewrite Hz. ring.
Qed.

Lemma wholesale_sale_after_overpayment_witness :
  (get_customer_dues_by_name
     (add_sale (add_dues_payment shop_ali "Ali" 90 EmptyString).1
        "wholesale" "P1" "Pen" 50 6 1 0 (Some "Ali")).1 "Ali"
   == max0 (50 * inject_Z 1 - 0 - 30))%Q.
Proof.
  destruct (wholesale_sale_after_overpayment
              (add_dues_payment shop_ali "Ali" 90 EmptyString).1
              "P1" "Pen" 50 6 1 0 "Ali"
              (add_sale (add_dues_payment shop_ali "Ali" 90 EmptyString).1
                 "wholesale" "P1" "Pen" 50 6 1 0 (Some "Ali")).1) as [_ H].
  - vm_compute. reflexivity.
  - apply (H 30%Q).
    + vm_compute. discriminate.
    + vm_compute. reflexivity.
Defined.
